(** * Concourse: the TSA command wiring and the pipeline presenter

    A shallow embedding of two Go files of the Concourse repository:

    - [atc/api/present/pipelines.go]: the presenter [Pipelines];
    - [tsa/tsacmd/command.go]: [TSACommand.Runner], [constructLogger],
      [loadTeamAuthorizedKeys] and [configureSSHServer] with the three
      closures it installs in the certificate checker.

    Go values are modelled as follows.  A [[]byte] is a [list byte], a Go
    [string] a [string], a [map[string]V] a [gmap string V], a slice a
    [list], a nilable pointer an [option], a [time.Duration] a [Z] counting
    nanoseconds.  A Go [error] is its message; a function returning
    [(v, err)] returns a pair whose second component is [None] for a nil
    error.  Code that mutates the shared [*sessionTeam] is written in a
    small state monad whose computations may also panic; a call that may
    panic and touches no registry gives a [Completion].

    Part I holds the definitions, Parts II and III the theorems. *)

From Stdlib Require Import ZArith Lia.
From Stdlib Require Import Strings.String Strings.Ascii Strings.Byte.
From stdpp Require Import base option list gmap strings pretty.

(** * Part I: the program *)

(** ** Go runtime: state, panics, [bytes] and [time] *)

(** The value carried by a panic. *)
Inductive Fault : Type :=
| InvariantViolation (sessionID bound requested : string).

(** What running a computation on a store [S] gives: a normal return with
    the new store, or a panic that unwinds through every caller, with the
    store as it was when the panic was raised. *)
Inductive Outcome (S A : Type) : Type :=
| Returns (a : A) (s : S)
| Panics (v : Fault) (s : S).
Arguments Returns {S A} a s.
Arguments Panics {S A} v s.

Definition M (S A : Type) : Type := S → Outcome S A.

(** What a call that works on no registry gives: its results, or a
    run-time panic, which unwinds through the callers as well. *)
Inductive Completion (A : Type) : Type :=
| Completes (a : A)
| RuntimePanic (reason : string).
Arguments Completes {A} a.
Arguments RuntimePanic {A} reason.

(** The run-time error of a method call or field access through a nil
    pointer. *)
Definition nilDereference : string :=
  "runtime error: invalid memory address or nil pointer dereference".

(** The monad structure, through stdpp's classes: [mret a] returns,
    [x ← m; k] runs [m] and then [k], and a panic in [m] skips [k]. *)
#[global] Instance M_ret {S : Type} : MRet (M S) := λ A a s, Returns a s.

#[global] Instance M_bind {S : Type} : MBind (M S) := λ A B k m s,
  match m s with
  | Returns a s' => k a s'
  | Panics v s' => Panics v s'
  end.

Module bytes.

(** [bytes.Equal]: same length and same bytes; a nil slice equals an
    empty one. *)
Fixpoint Equal (a b : list byte) : bool :=
  match a, b with
  | [], [] => true
  | x :: a', y :: b' => Byte.eqb x y && Equal a' b'
  | _, _ => false
  end.

End bytes.

Module time.

#[local] Open Scope Z_scope.

(** [time.Duration] is an [int64] count of nanoseconds. *)
Definition Duration : Type := Z.

Definition Nanosecond : Duration := 1.
Definition Microsecond : Duration := 1000 * Nanosecond.
Definition Millisecond : Duration := 1000 * Microsecond.
Definition Second : Duration := 1000 * Millisecond.
Definition Minute : Duration := 60 * Second.
Definition Hour : Duration := 60 * Minute.

Definition maxDuration : Duration := 2 ^ 63 - 1.

Definition digit (c : ascii) : option Z :=
  let n := Z.of_N (N_of_ascii c) in
  if (48 <=? n) && (n <=? 57) then Some (n - 48) else None.

Definition isDigit (c : ascii) : bool :=
  match digit c with Some _ => true | None => false end.

(** [leadingInt]: the leading decimal digits of [s], as a [uint64], and
    what follows them; [None] when the number passes [1<<63]. *)
Fixpoint leadingInt (s : string) (x : Z) : option (Z * string) :=
  match s with
  | String c rest =>
      match digit c with
      | Some d =>
          if x >? 2 ^ 63 / 10 then None
          else if 10 * x + d >? 2 ^ 63 then None
          else leadingInt rest (10 * x + d)
      | None => Some (x, s)
      end
  | EmptyString => Some (x, s)
  end.

(** [leadingFraction], for what the parser needs of it here: whether one
    of the leading digits of [s] is not zero, and what follows them. *)
Fixpoint leadingFraction (s : string) (nonzero : bool) : bool * string :=
  match s with
  | String c rest =>
      match digit c with
      | Some d => leadingFraction rest (nonzero || negb (d =? 0))
      | None => (nonzero, s)
      end
  | EmptyString => (nonzero, s)
  end.

(** The unit of a term: the characters up to the next digit or period. *)
Fixpoint leadingUnit (s : string) : string * string :=
  match s with
  | String c rest =>
      if isDigit c || Ascii.eqb c "." then (EmptyString, s)
      else let '(u, s') := leadingUnit rest in (String c u, s')
  | EmptyString => (EmptyString, EmptyString)
  end.

(** [unitMap], with both spellings of the microsecond (U+00B5 and
    U+03BC). *)
Definition unitMap (u : string) : option Duration :=
  if String.eqb u "ns" then Some Nanosecond
  else if String.eqb u "us" then Some Microsecond
  else if String.eqb u "µs" then Some Microsecond
  else if String.eqb u "μs" then Some Microsecond
  else if String.eqb u "ms" then Some Millisecond
  else if String.eqb u "s" then Some Second
  else if String.eqb u "m" then Some Minute
  else if String.eqb u "h" then Some Hour
  else None.

(** What the model of [time.ParseDuration] says of a string: the
    duration Go returns, that Go returns an error, or nothing.  It says
    nothing of a term with a fraction that has a digit other than zero,
    which Go computes in floating point. *)
Inductive ParseResult : Type :=
| Parsed (d : Duration)
| ParseError
| NotModelled.

(** The loop over the terms of the string, [d] being the [uint64] sum
    of the terms before [s].  Each turn consumes at least the unit of its
    term, so that the length of the string is fuel enough. *)
Fixpoint parseTerms (fuel : nat) (s : string) (d : Z) : ParseResult :=
  match s, fuel with
  | EmptyString, _ => Parsed d
  | String _ _, O => NotModelled
  | String c _, S fuel' =>
      if negb (Ascii.eqb c "." || isDigit c) then ParseError
      else
        match leadingInt s 0 with
        | None => ParseError
        | Some (v, s1) =>
            let pre := negb (String.length s1 =? String.length s)%nat in
            let '(post, nonzero, s2) :=
              match s1 with
              | String "." r =>
                  let '(nonzero, r') := leadingFraction r false in
                  (negb (String.length r' =? String.length r)%nat,
                   nonzero, r')
              | _ => (false, false, s1)
              end in
            if negb pre && negb post then ParseError
            else
              let '(u, s3) := leadingUnit s2 in
              if String.eqb u "" then ParseError
              else
                match unitMap u with
                | None => ParseError
                | Some unit =>
                    if v >? 2 ^ 63 / unit then ParseError
                    else if nonzero then NotModelled
                    else
                      let d' := (d + v * unit) mod 2 ^ 64 in
                      if d' >? 2 ^ 63 then ParseError
                      else parseTerms fuel' s3 d'
                end
        end
  end.

(** [time.ParseDuration], which the flag parser applies to the [default]
    tag of a [time.Duration] field: an optional sign, then "0" alone or
    one term or more, each a number and a unit. *)
Definition ParseDuration (s : string) : ParseResult :=
  let '(neg, s1) :=
    match s with
    | String "-" r => (true, r)
    | String "+" r => (false, r)
    | _ => (false, s)
    end in
  if String.eqb s1 "0" then Parsed 0
  else if String.eqb s1 "" then ParseError
  else
    match parseTerms (String.length s1) s1 0 with
    | Parsed d =>
        if neg then Parsed (- d)
        else if d >? maxDuration then ParseError
        else Parsed d
    | ParseError => ParseError
    | NotModelled => NotModelled
    end.

End time.

(** ** Presenter: [atc/api/present/pipelines.go] *)

Section present.

(** [db.Pipeline] is an interface and [atc.Pipeline] a struct, both
    declared outside the file; [Pipeline] is the presenter of one saved
    pipeline (present/pipeline.go).  [zero] is the zero value of
    [atc.Pipeline], with which [make] fills a new slice. *)
Context {dbPipeline atcPipeline : Type}.
Variable Pipeline : dbPipeline → atcPipeline.
Variable zero : atcPipeline.

(** [make([]atc.Pipeline, n)] *)
Definition make (n : nat) : list atcPipeline := replicate n zero.

(** The loop body, [pipelines[i] = Pipeline(savedPipelines[i])].
    Indexing a Go slice out of range panics: [None] stands for that
    panic, on the read of [savedPipelines[i]] and on the write of
    [pipelines[i]] alike. *)
Definition Pipelines_body (savedPipelines : list dbPipeline) (i : nat)
    (pipelines : list atcPipeline) : option (list atcPipeline) :=
  match savedPipelines !! i with
  | None => None
  | Some p =>
      if decide (i < length pipelines)
      then Some (<[i := Pipeline p]> pipelines)
      else None
  end.

(** [for i := range savedPipelines { ... }] over the given indices. *)
Fixpoint Pipelines_range (savedPipelines : list dbPipeline)
    (indices : list nat) (pipelines : list atcPipeline)
    : option (list atcPipeline) :=
  match indices with
  | [] => Some pipelines
  | i :: rest =>
      match Pipelines_body savedPipelines i pipelines with
      | None => None
      | Some pipelines' => Pipelines_range savedPipelines rest pipelines'
      end
  end.

(** [i] runs over [0 .. len(savedPipelines) - 1] in increasing order. *)
Definition Pipelines (savedPipelines : list dbPipeline)
    : option (list atcPipeline) :=
  let pipelines := make (length savedPipelines) in
  Pipelines_range savedPipelines (seq 0 (length savedPipelines)) pipelines.

End present.

(** ** The SSH library: [golang.org/x/crypto/ssh] *)

(** A Go [error], by its message. *)
Definition error : Type := string.

(** [ssh.Permissions] *)
Record Permissions : Type := {
  CriticalOptions : gmap string string;
  Extensions : gmap string string;
}.

(** [ssh.PublicKey] is an interface.  Its implementations are the plain
    keys and [*ssh.Certificate], which [CertChecker.Authenticate] tells
    apart by a type assertion.  Of a plain key only [Marshal], its wire
    encoding, is used; of a certificate also the fields below. *)
Inductive PublicKey : Type :=
| PlainKey (wire : list byte)
| Certificate (wire : list byte) (CertType : Z) (SignatureKey : PublicKey)
    (perms : Permissions).

Definition Marshal (key : PublicKey) : list byte :=
  match key with
  | PlainKey wire => wire
  | Certificate wire _ _ _ => wire
  end.

(** [ssh.UserCert] *)
Definition UserCert : Z := 1.

(** [ssh.ConnMetadata], an interface; [User] and [SessionID] are the two
    methods called. *)
Record ConnMetadata : Type := {
  User : string;
  SessionID : list byte;
}.

(** What a key callback returns: a [*ssh.Permissions] and an [error]. *)
Definition Verdict : Type := option Permissions * option error.

Section ssh.

(** [Store] is the state the callbacks run on.  [CheckCert] is
    [CertChecker.CheckCert], which validates a certificate for a
    principal; [Signer] is [ssh.Signer] and [Config] is [ssh.Config]. *)
Context {Store Signer Config : Type}.
Variable CheckCert : string → PublicKey → option error.

(** [ssh.CertChecker], with the three fields the command sets. *)
Record CertChecker : Type := {
  IsUserAuthority : PublicKey → bool;
  IsHostAuthority : PublicKey → string → bool;
  UserKeyFallback : option (ConnMetadata → PublicKey → M Store Verdict);
}.

(** [CertChecker.Authenticate]: a key that is not a certificate goes
    to [UserKeyFallback]; a certificate must be a user certificate signed
    by a key that [IsUserAuthority] recognises, and pass [CheckCert]. *)
Definition Authenticate (c : CertChecker) (conn : ConnMetadata)
    (pubKey : PublicKey) : M Store Verdict :=
  match pubKey with
  | PlainKey _ =>
      match UserKeyFallback c with
      | Some fallback => fallback conn pubKey
      | None => mret (None, Some "ssh: normal key pairs not accepted")
      end
  | Certificate _ certType signatureKey perms =>
      if negb (certType =? UserCert)%Z then
        mret (None, Some ("ssh: cert has type " +:+ pretty certType))
      else if negb (IsUserAuthority c signatureKey) then
        mret (None, Some "ssh: certificate signed by unrecognized authority")
      else
        match CheckCert (User conn) pubKey with
        | Some err => mret (None, Some err)
        | None => mret (Some perms, None)
        end
  end.

(** [ssh.ServerConfig], with the fields the command sets. *)
Record ServerConfig : Type := {
  ServerConfig_Config : Config;
  PublicKeyCallback : option (ConnMetadata → PublicKey → M Store Verdict);
  hostKeys : list Signer;
}.

End ssh.

Arguments CertChecker : clear implicits.
Arguments ServerConfig : clear implicits.

(** ** The command: [tsa/tsacmd/command.go] *)

(** [type TeamAuthKeys struct] *)
Record TeamAuthKeys : Type := {
  Team : string;
  AuthKeys : list PublicKey;
}.

(** [string(b)] for a byte slice [b]. *)
Definition string_of_bytes (b : list byte) : string := string_of_list_byte b.

Section configureSSHServer.

(** [AuthorizeTeam] is the method of [*sessionTeam] that the callback
    calls on [sessionAuthTeam]; it is declared outside the file, and so
    it is a parameter here, as is the store it works on. *)
Context {Store : Type}.
Variable AuthorizeTeam : string → string → M Store ().
Variable authorizedKeys : list PublicKey.
Variable teamAuthorizedKeys : list TeamAuthKeys.

(** [for _, k := range authorizedKeys { if bytes.Equal(...) { return nil, nil } }]:
    [Some v] when the loop returned [v], [None] when it ran to its end. *)
Fixpoint rangeAuthorizedKeys (keys : list PublicKey) (key : PublicKey)
    : option Verdict :=
  match keys with
  | [] => None
  | k :: rest =>
      if bytes.Equal (Marshal k) (Marshal key)
      then Some (None, None)
      else rangeAuthorizedKeys rest key
  end.

(** The inner loop over one team's keys: on a match it calls
    [AuthorizeTeam] and returns [nil, nil]. *)
Fixpoint rangeAuthKeys (team : string) (keys : list PublicKey)
    (conn : ConnMetadata) (key : PublicKey) : M Store (option Verdict) :=
  match keys with
  | [] => mret None
  | k :: rest =>
      if bytes.Equal (Marshal k) (Marshal key)
      then AuthorizeTeam (string_of_bytes (SessionID conn)) team;;
           mret (Some (None, None))
      else rangeAuthKeys team rest conn key
  end.

(** The outer loop, [for _, teamKeys := range teamAuthorizedKeys]. *)
Fixpoint rangeTeamAuthorizedKeys (teams : list TeamAuthKeys)
    (conn : ConnMetadata) (key : PublicKey) : M Store (option Verdict) :=
  match teams with
  | [] => mret None
  | teamKeys :: rest =>
      returned ← rangeAuthKeys (Team teamKeys) (AuthKeys teamKeys) conn key;
      match returned with
      | Some v => mret (Some v)
      | None => rangeTeamAuthorizedKeys rest conn key
      end
  end.

(** The closure stored in [UserKeyFallback]. *)
Definition UserKeyFallback_closure (conn : ConnMetadata) (key : PublicKey)
    : M Store Verdict :=
  match rangeAuthorizedKeys authorizedKeys key with
  | Some v => mret v
  | None =>
      returned ← rangeTeamAuthorizedKeys teamAuthorizedKeys conn key;
      match returned with
      | Some v => mret v
      | None => mret (None, Some "unknown public key")
      end
  end.

(** [certChecker := &ssh.CertChecker{...}] *)
Definition certChecker : CertChecker Store := {|
  IsUserAuthority := λ key, false;
  IsHostAuthority := λ key address, false;
  UserKeyFallback := Some UserKeyFallback_closure;
|}.

(** The library and the packages of the repository that the function
    calls: [ssh.NewSignerFromKey], [atc.DefaultSSHConfig] and
    [CertChecker.CheckCert].  [NewSignerFromKey] is the library call on a
    key that is there: it returns a signer or an error, or panics. *)
Context {Signer Config HostKeyT : Type}.
Variable CheckCert : string → PublicKey → option error.
Variable DefaultSSHConfig : Config.
Variable NewSignerFromKey : HostKeyT → Completion (Signer + error).

(** [ssh.NewSignerFromKey(cmd.HostKey)], [cmd.HostKey] being a
    [*flag.PrivateKey]: the library calls the methods of the key, and
    through a nil pointer that call panics. *)
Definition ssh_NewSignerFromKey (HostKey : option HostKeyT)
    : Completion (Signer + error) :=
  match HostKey with
  | None => RuntimePanic nilDereference
  | Some key => NewSignerFromKey key
  end.

(** [TSACommand.configureSSHServer]; [HostKey] is [cmd.HostKey].
    [config.AddHostKey(signer)] on a configuration without host keys
    leaves it with that one. *)
Definition configureSSHServer (HostKey : option HostKeyT)
    : Completion (option (ServerConfig Store Signer Config) * option error) :=
  let config := {|
    ServerConfig_Config := DefaultSSHConfig;
    PublicKeyCallback :=
      Some (λ conn key, Authenticate CheckCert certChecker conn key);
    hostKeys := [];
  |} in
  match ssh_NewSignerFromKey HostKey with
  | RuntimePanic reason => RuntimePanic reason
  | Completes (inr err) =>
      Completes
        (None, Some ("failed to create signer from host key: " +:+ err))
  | Completes (inl signer) =>
      Completes
        (Some {| ServerConfig_Config := ServerConfig_Config config;
                 PublicKeyCallback := PublicKeyCallback config;
                 hostKeys := hostKeys config ++ [signer] |}, None)
  end.

End configureSSHServer.

(** ** The session registry *)

(** [sessionTeam], as [Runner] builds it: the map [sessionTeams] from
    session identifiers to team names.  Its [lock], a [*sync.RWMutex],
    orders concurrent calls; each call below is one critical section. *)
Record sessionTeam : Type := {
  sessionTeams : gmap string string;
}.

(** Modelled from the spec: the method [AuthorizeTeam] of [*sessionTeam],
    which the file calls and does not declare.  It is the registry's
    [Bind(sessionID, tenant)]: idempotent when called again with the same
    tenant, and rejecting, as an invariant violation fatal to the caller,
    a call with a different tenant for a session that is still bound. *)
Definition sessionTeam_AuthorizeTeam (sessionID team : string)
    : M sessionTeam () := λ s,
  match sessionTeams s !! sessionID with
  | None => Returns () {| sessionTeams := <[sessionID := team]> (sessionTeams s) |}
  | Some bound =>
      if decide (bound = team)
      then Returns () s
      else Panics (InvariantViolation sessionID bound team) s
  end.

(** Modelled from the spec: the registry's [Lookup(sessionID)], which the
    file does not declare; the tenant the session is bound to, if any. *)
Definition sessionTeam_Lookup (s : sessionTeam) (sessionID : string)
    : option string :=
  sessionTeams s !! sessionID.

(** A store that only records the calls of [AuthorizeTeam], in order:
    each call appends its session and team. *)
Definition recordAuthorizeTeam (sessionID team : string)
    : M (list (string * string)) () :=
  λ calls, Returns () (calls ++ [(sessionID, team)]).

(** The [AuthorizeTeam] calls that one run of the [UserKeyFallback]
    closure makes. *)
Definition bindCalls (authorizedKeys : list PublicKey)
    (teamAuthorizedKeys : list TeamAuthKeys) (conn : ConnMetadata)
    (key : PublicKey) : list (string * string) :=
  match UserKeyFallback_closure recordAuthorizeTeam authorizedKeys
          teamAuthorizedKeys conn key [] with
  | Returns _ calls => calls
  | Panics _ calls => calls
  end.

(** ** [TSACommand] and [Runner] *)

(** [lager.Logger], by the component it was made for and the data
    attached to it. *)
Record Logger : Type := {
  component : string;
  data : list (string * string);
}.

(** [logger.WithData(lager.Data{k: v})] *)
Definition WithData (logger : Logger) (k v : string) : Logger :=
  {| component := component logger; data := data logger ++ [(k, v)] |}.

(** A call of [logger.Info(action)].  Which calls reach the output is
    decided by the sink, from the log level of [flag.Lager]. *)
Inductive LogCall : Type :=
| Info (logger : Logger) (action : string).

(** [concourse.WebConfig], with the two fields read. *)
Record WebConfig : Type := {
  LogClusterName : bool;
  ClusterName : string;
}.

(** [flag.AuthorizedKeys] *)
Record AuthorizedKeysFlag : Type := {
  Keys : list PublicKey;
}.

(** [http.DefaultClient] *)
Inductive httpClient : Type := DefaultClient.

Section tsacmd.

(** [rsaPrivateKey] is [*rsa.PrivateKey].  [Signer], [Config],
    [CheckCert], [DefaultSSHConfig] and [NewSignerFromKey] are as in
    [configureSSHServer]; [AuthorizeTeam] is the method of the registry
    that [Runner] creates.  [rangeOrder] is the order in which this
    process ranges over a map: Go leaves it open, and it visits every
    entry once. *)
Context {rsaPrivateKey Signer Config : Type}.

(** [flag.PrivateKey], a struct embedding [*rsa.PrivateKey]. *)
Record PrivateKeyFlag : Type := {
  PrivateKey : rsaPrivateKey;
}.

Variable AuthorizeTeam : string → string → M sessionTeam ().
Variable CheckCert : string → PublicKey → option error.
Variable DefaultSSHConfig : Config.
Variable NewSignerFromKey : PrivateKeyFlag → Completion (Signer + error).
Variable rangeOrder :
  gmap string AuthorizedKeysFlag → list (string * AuthorizedKeysFlag).

(** [type TSACommand struct].  [Logger] is the [flag.Lager], by its log
    level; the addresses are in their textual form. *)
Record TSACommand : Type := {
  TSACommand_Logger : string;
  BindIP : string;
  PeerAddress : string;
  BindPort : N;
  DebugBindIP : string;
  DebugBindPort : N;
  HostKey : option PrivateKeyFlag;
  AuthorizedKeys : AuthorizedKeysFlag;
  TeamAuthorizedKeys : gmap string AuthorizedKeysFlag;
  ATCURLs : list string;
  SessionSigningKey : option PrivateKeyFlag;
  HeartbeatInterval : time.Duration;
}.

(** The [default] tag of [HeartbeatInterval]. *)
Definition HeartbeatInterval_default : string := "30s".

(** The flag parser left [HeartbeatInterval] at its default. *)
Definition defaultHeartbeatInterval (cmd : TSACommand) : Prop :=
  time.ParseDuration HeartbeatInterval_default
  = time.Parsed (HeartbeatInterval cmd).

(** [tsa.NewRandomATCEndpointPicker] and [tsa.NewTokenGenerator] wrap
    their argument. *)
Record EndpointPicker : Type := NewRandomATCEndpointPicker {
  atcURLs : list string;
}.

Record TokenGenerator : Type := NewTokenGenerator {
  signingKey : rsaPrivateKey;
}.

(** [server], by the fields of the literal in [Runner]. *)
Record server : Type := {
  logger : Logger;
  heartbeatInterval : time.Duration;
  cprInterval : time.Duration;
  atcEndpointPicker : EndpointPicker;
  tokenGenerator : TokenGenerator;
  forwardHost : string;
  config : option (ServerConfig sessionTeam Signer Config);
  httpClient_ : httpClient;
  sessionTeam_ : sessionTeam;
}.

(** [serverRunner{logger, server, listenAddr}] *)
Record serverRunner : Type := {
  runner_logger : Logger;
  runner_server : server;
  runner_listenAddr : string;
}.

(** [cmd.Logger.Logger(name)] gives a logger for the component. *)
Definition Lager_Logger (cmd : TSACommand) (name : string) : Logger :=
  {| component := name; data := [] |}.

Definition constructLogger (cmd : TSACommand) (config : WebConfig) : Logger :=
  let logger := Lager_Logger cmd "tsa" in
  if LogClusterName config
  then WithData logger "cluster" (ClusterName config)
  else logger.

(** [for teamName, keys := range cmd.TeamAuthorizedKeys { append }] *)
Definition loadTeamAuthorizedKeys (cmd : TSACommand)
    : list TeamAuthKeys * option error :=
  let teamKeys :=
    foldl (λ teamKeys entry,
             teamKeys ++ [{| Team := entry.1; AuthKeys := Keys entry.2 |}])
          [] (rangeOrder (TeamAuthorizedKeys cmd)) in
  (teamKeys, None).

(** [fmt.Sprintf("%s:%d", ip, port)] *)
Definition Sprintf_addr (ip : string) (port : N) : string :=
  ip +:+ ":" +:+ pretty port.

(** [TSACommand.Runner]: the calls made on the logger, then the runner
    and the error that are returned, or the panic. *)
Definition Runner (cmd : TSACommand) (args : list string)
    (webConfig : WebConfig)
    : list LogCall * Completion (option serverRunner * option error) :=
  let logger := constructLogger cmd webConfig in
  let atcEndpointPicker := NewRandomATCEndpointPicker (ATCURLs cmd) in
  match loadTeamAuthorizedKeys cmd with
  | (_, Some err) =>
      ([], Completes
             (None, Some ("failed to load team authorized keys: " +:+ err)))
  | (teamAuthorizedKeys, None) =>
      let log :=
        if decide (length (Keys (AuthorizedKeys cmd))
                   + size (TeamAuthorizedKeys cmd) = 0)
        then [Info logger "starting-tsa-without-authorized-keys"]
        else [] in
      let sessionAuthTeam := {| sessionTeams := ∅ |} in
      match configureSSHServer AuthorizeTeam (Keys (AuthorizedKeys cmd))
              teamAuthorizedKeys CheckCert DefaultSSHConfig NewSignerFromKey
              (HostKey cmd) with
      | RuntimePanic reason => (log, RuntimePanic reason)
      | Completes (_, Some err) =>
          (log, Completes
                  (None, Some ("failed to configure SSH server: " +:+ err)))
      | Completes (config, None) =>
          let listenAddr := Sprintf_addr (BindIP cmd) (BindPort cmd) in
          match SessionSigningKey cmd with
          | None =>
              (log, Completes (None, Some "missing session signing key"))
          | Some sessionSigningKey =>
              let tokenGenerator :=
                NewTokenGenerator (PrivateKey sessionSigningKey) in
              let server := {|
                logger := logger;
                heartbeatInterval := HeartbeatInterval cmd;
                cprInterval := (1 * time.Second)%Z;
                atcEndpointPicker := atcEndpointPicker;
                tokenGenerator := tokenGenerator;
                forwardHost := PeerAddress cmd;
                config := config;
                httpClient_ := DefaultClient;
                sessionTeam_ := sessionAuthTeam;
              |} in
              (log, Completes
                      (Some {| runner_logger := logger;
                               runner_server := server;
                               runner_listenAddr := listenAddr |}, None))
          end
      end
  end.

(** [TSACommand.debugBindAddr] *)
Definition debugBindAddr (cmd : TSACommand) : string :=
  Sprintf_addr (DebugBindIP cmd) (DebugBindPort cmd).

End tsacmd.

Arguments PrivateKeyFlag : clear implicits.
Arguments TSACommand : clear implicits.
Arguments server : clear implicits.
Arguments serverRunner : clear implicits.

(** ** Vocabulary of the specification *)

(** [key] is in the key set [keys]: a key of the set has the same
    encoding, byte for byte. *)
Definition authorizes (keys : list PublicKey) (key : PublicKey) : Prop :=
  ∃ k : PublicKey, k ∈ keys ∧ Marshal k = Marshal key.

(** [key] is in the key set of some configured team. *)
Definition teamAuthorizes (teamAuthorizedKeys : list TeamAuthKeys)
    (key : PublicKey) : Prop :=
  ∃ teamKeys : TeamAuthKeys,
    teamKeys ∈ teamAuthorizedKeys ∧ authorizes (AuthKeys teamKeys) key.

(** [key] belongs to the team [T] and to nothing else: it is in a key set
    of [T], every team key set that holds it is one of [T], and the global
    set does not hold it. *)
Definition exclusivelyOf (T : string) (authorizedKeys : list PublicKey)
    (teamAuthorizedKeys : list TeamAuthKeys) (key : PublicKey) : Prop :=
  (∃ teamKeys : TeamAuthKeys,
     teamKeys ∈ teamAuthorizedKeys ∧ Team teamKeys = T
     ∧ authorizes (AuthKeys teamKeys) key)
  ∧ (∀ teamKeys : TeamAuthKeys,
       teamKeys ∈ teamAuthorizedKeys → authorizes (AuthKeys teamKeys) key →
       Team teamKeys = T)
  ∧ ¬ authorizes authorizedKeys key.

(** [teamKeys] is the first team, in the order of the slice, whose key
    set holds [key]. *)
Definition firstMatch (teamAuthorizedKeys : list TeamAuthKeys)
    (key : PublicKey) (teamKeys : TeamAuthKeys) : Prop :=
  ∃ before after : list TeamAuthKeys,
    teamAuthorizedKeys = before ++ teamKeys :: after
    ∧ Forall (λ t, ¬ authorizes (AuthKeys t) key) before
    ∧ authorizes (AuthKeys teamKeys) key.

(** The verdict [nil, nil], which accepts the key. *)
Definition accepted : Verdict := (None, None).

(** The session identifier under which the registry files [conn]. *)
Definition sessionOf (conn : ConnMetadata) : string :=
  string_of_bytes (SessionID conn).

(** ** A sample configuration *)

(** Six keys: [keyG] is global only, [keyGA] global and of team a,
    [keyA] of team a only, [keyB] of team b only, [keyAB] of both teams,
    and [keyX] is in no set. *)
Definition keyG : PublicKey := PlainKey [x01].
Definition keyGA : PublicKey := PlainKey [x01; x0a].
Definition keyA : PublicKey := PlainKey [x0a].
Definition keyB : PublicKey := PlainKey [x0b].
Definition keyAB : PublicKey := PlainKey [x0a; x0b].
Definition keyX : PublicKey := PlainKey [xff].

Definition sample_authorizedKeys : list PublicKey := [keyG; keyGA].

Definition sample_teams : list TeamAuthKeys :=
  [ {| Team := "a"; AuthKeys := [keyA; keyAB; keyGA] |};
    {| Team := "b"; AuthKeys := [keyB; keyAB] |} ].

(** A connection whose session identifier is the two bytes of "s1". *)
Definition sample_conn : ConnMetadata :=
  {| User := "worker"; SessionID := [x73; x31] |}.

(** The registry as [Runner] creates it. *)
Definition emptyRegistry : sessionTeam := {| sessionTeams := ∅ |}.


(** The registry once the session "s1" is bound to team b. *)
Definition boundToB : sessionTeam :=
  {| sessionTeams := <["s1" := "b"]> ∅ |}.

(** Stand-ins for the library: every host key that is there gives a
    signer, and every certificate passes [CheckCert]. *)
Definition sample_NewSignerFromKey (key : PrivateKeyFlag ())
    : Completion (() + error) := Completes (inl ()).

Definition sample_CheckCert (principal : string) (cert : PublicKey)
    : option error := None.

(** A command with both private keys, no authorized keys at all, and
    every other option at the default of its tag. *)
Definition sample_cmd : TSACommand () := {|
  TSACommand_Logger := "info";
  BindIP := "0.0.0.0";
  PeerAddress := "127.0.0.1";
  BindPort := 2222%N;
  DebugBindIP := "127.0.0.1";
  DebugBindPort := 2221%N;
  HostKey := Some {| PrivateKey := () |};
  AuthorizedKeys := {| Keys := [] |};
  TeamAuthorizedKeys := ∅;
  ATCURLs := ["http://127.0.0.1:8080"];
  SessionSigningKey := Some {| PrivateKey := () |};
  HeartbeatInterval := 30000000000%Z;
|}.

(** The same command without the session signing key. *)
Definition sample_cmd_unsigned : TSACommand () := {|
  TSACommand_Logger := TSACommand_Logger sample_cmd;
  BindIP := BindIP sample_cmd;
  PeerAddress := PeerAddress sample_cmd;
  BindPort := BindPort sample_cmd;
  DebugBindIP := DebugBindIP sample_cmd;
  DebugBindPort := DebugBindPort sample_cmd;
  HostKey := HostKey sample_cmd;
  AuthorizedKeys := AuthorizedKeys sample_cmd;
  TeamAuthorizedKeys := TeamAuthorizedKeys sample_cmd;
  ATCURLs := ATCURLs sample_cmd;
  SessionSigningKey := None;
  HeartbeatInterval := HeartbeatInterval sample_cmd;
|}.

(** The same command with neither private key. *)
Definition sample_cmd_without_keys : TSACommand () := {|
  TSACommand_Logger := TSACommand_Logger sample_cmd;
  BindIP := BindIP sample_cmd;
  PeerAddress := PeerAddress sample_cmd;
  BindPort := BindPort sample_cmd;
  DebugBindIP := DebugBindIP sample_cmd;
  DebugBindPort := DebugBindPort sample_cmd;
  HostKey := None;
  AuthorizedKeys := AuthorizedKeys sample_cmd;
  TeamAuthorizedKeys := TeamAuthorizedKeys sample_cmd;
  ATCURLs := ATCURLs sample_cmd;
  SessionSigningKey := None;
  HeartbeatInterval := HeartbeatInterval sample_cmd;
|}.

Definition sample_webConfig : WebConfig :=
  {| LogClusterName := false; ClusterName := "" |}.

(** [Runner] on the stand-ins, with the registry of the specification
    and the map ranged over in the order of [map_to_list]. *)
Definition sample_Runner (cmd : TSACommand ())
    : list LogCall
      * Completion (option (serverRunner () () ()) * option error) :=
  Runner sessionTeam_AuthorizeTeam sample_CheckCert () sample_NewSignerFromKey
    map_to_list cmd [] sample_webConfig.

(** A command with one global key and the two teams a and b, and a
    command whose only team has an empty key file. *)
Definition sample_cmd_teams : TSACommand () := {|
  TSACommand_Logger := TSACommand_Logger sample_cmd;
  BindIP := BindIP sample_cmd;
  PeerAddress := PeerAddress sample_cmd;
  BindPort := BindPort sample_cmd;
  DebugBindIP := DebugBindIP sample_cmd;
  DebugBindPort := DebugBindPort sample_cmd;
  HostKey := HostKey sample_cmd;
  AuthorizedKeys := {| Keys := [keyG] |};
  TeamAuthorizedKeys :=
    <["a" := {| Keys := [keyA; keyAB] |}]>
      (<["b" := {| Keys := [keyB; keyAB] |}]> ∅);
  ATCURLs := ATCURLs sample_cmd;
  SessionSigningKey := SessionSigningKey sample_cmd;
  HeartbeatInterval := HeartbeatInterval sample_cmd;
|}.

Definition sample_cmd_keyless_team : TSACommand () := {|
  TSACommand_Logger := TSACommand_Logger sample_cmd;
  BindIP := BindIP sample_cmd;
  PeerAddress := PeerAddress sample_cmd;
  BindPort := BindPort sample_cmd;
  DebugBindIP := DebugBindIP sample_cmd;
  DebugBindPort := DebugBindPort sample_cmd;
  HostKey := HostKey sample_cmd;
  AuthorizedKeys := {| Keys := [] |};
  TeamAuthorizedKeys := <["a" := {| Keys := [] |}]> ∅;
  ATCURLs := ATCURLs sample_cmd;
  SessionSigningKey := SessionSigningKey sample_cmd;
  HeartbeatInterval := HeartbeatInterval sample_cmd;
|}.

(** * Part II: the properties *)

(** ** Byte comparison and the key loops *)

Lemma bytes_Equal_true (a b : list byte) : bytes.Equal a b = true ↔ a = b.
Proof.
  revert b. induction a as [|x a IH]; intros [|y b]; simpl; try done.
  rewrite andb_true_iff, IH. split.
  - intros [Hxy ->]. by rewrite (Byte.byte_dec_bl _ _ Hxy).
  - intros [= -> ->]. split; [by apply Byte.byte_dec_lb | done].
Qed.

Lemma authorizes_nil (key : PublicKey) : ¬ authorizes [] key.
Proof. intros (k & Hk & _). by apply elem_of_nil in Hk. Qed.

Lemma authorizes_cons (k : PublicKey) (keys : list PublicKey) (key : PublicKey) :
  authorizes (k :: keys) key ↔ Marshal k = Marshal key ∨ authorizes keys key.
Proof.
  unfold authorizes. split.
  - intros (k' & [->|Hin]%elem_of_cons & Heq); [by left | right; eauto].
  - intros [Heq | (k' & Hin & Heq)].
    + exists k. split; [apply elem_of_cons; by left | done].
    + exists k'. split; [apply elem_of_cons; by right | done].
Qed.

Lemma rangeAuthorizedKeys_match (keys : list PublicKey) (key : PublicKey) :
  authorizes keys key → rangeAuthorizedKeys keys key = Some accepted.
Proof.
  induction keys as [|k keys IH]; intros Hin; simpl.
  - by apply authorizes_nil in Hin.
  - destruct (bytes.Equal (Marshal k) (Marshal key)) eqn:E; [done|].
    apply authorizes_cons in Hin as [Heq | Hin]; [|by apply IH].
    apply bytes_Equal_true in Heq. congruence.
Qed.

Lemma rangeAuthorizedKeys_no_match (keys : list PublicKey) (key : PublicKey) :
  ¬ authorizes keys key → rangeAuthorizedKeys keys key = None.
Proof.
  induction keys as [|k keys IH]; intros Hnot; simpl; [done|].
  destruct (bytes.Equal (Marshal k) (Marshal key)) eqn:E.
  - destruct Hnot. apply authorizes_cons. left. by apply bytes_Equal_true.
  - apply IH. intros Hin. apply Hnot, authorizes_cons. by right.
Qed.

Section loops.

Context {Store : Type}.
Variable AuthorizeTeam : string → string → M Store ().

Lemma rangeAuthKeys_match (team : string) (keys : list PublicKey)
    (conn : ConnMetadata) (key : PublicKey) (s : Store) :
  authorizes keys key →
  rangeAuthKeys AuthorizeTeam team keys conn key s
  = (AuthorizeTeam (sessionOf conn) team;; mret (Some accepted)) s.
Proof.
  induction keys as [|k keys IH]; intros Hin; simpl.
  - by apply authorizes_nil in Hin.
  - destruct (bytes.Equal (Marshal k) (Marshal key)) eqn:E; [done|].
    apply authorizes_cons in Hin as [Heq | Hin]; [|by apply IH].
    apply bytes_Equal_true in Heq. congruence.
Qed.

Lemma rangeAuthKeys_no_match (team : string) (keys : list PublicKey)
    (conn : ConnMetadata) (key : PublicKey) (s : Store) :
  ¬ authorizes keys key →
  rangeAuthKeys AuthorizeTeam team keys conn key s = Returns None s.
Proof.
  induction keys as [|k keys IH]; intros Hnot; simpl; [done|].
  destruct (bytes.Equal (Marshal k) (Marshal key)) eqn:E.
  - destruct Hnot. apply authorizes_cons. left. by apply bytes_Equal_true.
  - apply IH. intros Hin. apply Hnot, authorizes_cons. by right.
Qed.

Lemma rangeTeamAuthorizedKeys_no_match (teams : list TeamAuthKeys)
    (conn : ConnMetadata) (key : PublicKey) (s : Store) :
  ¬ teamAuthorizes teams key →
  rangeTeamAuthorizedKeys AuthorizeTeam teams conn key s = Returns None s.
Proof.
  induction teams as [|t teams IH]; intros Hnot; simpl; [done|].
  unfold mbind, M_bind.
  rewrite rangeAuthKeys_no_match.
  - apply IH. intros (t' & Hin & Hkey). apply Hnot. exists t'.
    split; [apply elem_of_cons; by right | done].
  - intros Hkey. apply Hnot. exists t.
    split; [apply elem_of_cons; by left | done].
Qed.

Lemma rangeTeamAuthorizedKeys_first (teams : list TeamAuthKeys)
    (conn : ConnMetadata) (key : PublicKey) (teamKeys : TeamAuthKeys)
    (s : Store) :
  firstMatch teams key teamKeys →
  rangeTeamAuthorizedKeys AuthorizeTeam teams conn key s
  = (AuthorizeTeam (sessionOf conn) (Team teamKeys);; mret (Some accepted)) s.
Proof.
  intros (before & after & -> & Hbefore & Hkey).
  induction Hbefore as [|t before Ht _ IH]; simpl; unfold mbind, M_bind.
  - rewrite rangeAuthKeys_match by done. unfold mbind, M_bind.
    by destruct (AuthorizeTeam _ _ s).
  - by rewrite rangeAuthKeys_no_match.
Qed.

End loops.

Lemma authorizes_decide (keys : list PublicKey) (key : PublicKey) :
  authorizes keys key ↔ rangeAuthorizedKeys keys key = Some accepted.
Proof.
  split; [apply rangeAuthorizedKeys_match|].
  intros Hsome. destruct (rangeAuthorizedKeys keys key) eqn:E; [|done].
  induction keys as [|k keys IH]; simpl in E; [done|].
  apply authorizes_cons.
  destruct (bytes.Equal (Marshal k) (Marshal key)) eqn:Eb.
  - left. by apply bytes_Equal_true.
  - right. by apply IH.
Qed.

Lemma not_authorizes_decide (keys : list PublicKey) (key : PublicKey) :
  ¬ authorizes keys key ↔ rangeAuthorizedKeys keys key = None.
Proof.
  split; [apply rangeAuthorizedKeys_no_match|].
  intros Hnone Hin%rangeAuthorizedKeys_match. congruence.
Qed.

Lemma authorizes_dec (keys : list PublicKey) (key : PublicKey) :
  authorizes keys key ∨ ¬ authorizes keys key.
Proof.
  destruct (rangeAuthorizedKeys keys key) as [v|] eqn:E.
  - left. apply authorizes_decide. rewrite E. f_equal.
    induction keys as [|k keys IH]; simpl in E; [done|].
    destruct (bytes.Equal (Marshal k) (Marshal key)); [by injection E as <- | by apply IH].
  - right. by apply not_authorizes_decide.
Qed.

(** A key that some team holds has a first team holding it. *)
Lemma teamAuthorizes_first (teams : list TeamAuthKeys) (key : PublicKey) :
  teamAuthorizes teams key →
  ∃ teamKeys : TeamAuthKeys, teamKeys ∈ teams ∧ firstMatch teams key teamKeys.
Proof.
  induction teams as [|t teams IH]; intros (t' & Hin & Hkey).
  - by apply elem_of_nil in Hin.
  - destruct (authorizes_dec (AuthKeys t) key) as [Ht | Ht].
    + exists t. split; [apply elem_of_cons; by left|].
      exists [], teams. by repeat split.
    + apply elem_of_cons in Hin as [-> | Hin]; [done|].
      destruct IH as (t1 & Hin1 & before & after & -> & Hbefore & H1).
      { by exists t'. }
      exists t1. split; [apply elem_of_cons; by right|].
      exists (t :: before), after. repeat split; [|done].
      by apply Forall_cons.
Qed.

Lemma exclusivelyOf_first (T : string) (authorizedKeys : list PublicKey)
    (teams : list TeamAuthKeys) (key : PublicKey) :
  exclusivelyOf T authorizedKeys teams key →
  ∃ teamKeys : TeamAuthKeys, firstMatch teams key teamKeys ∧ Team teamKeys = T.
Proof.
  intros ((t & Hin & _ & Hkey) & Hall & _).
  destruct (teamAuthorizes_first teams key) as (t1 & Hin1 & Hfirst).
  { by exists t. }
  exists t1. split; [done|].
  apply Hall; [done|]. by destruct Hfirst as (? & ? & _ & _ & ?).
Qed.

(** ** The [UserKeyFallback] closure, for any registry *)

Section UserKeyFallback.

Context {Store : Type}.
Variable AuthorizeTeam : string → string → M Store ().
Variable authorizedKeys : list PublicKey.
Variable teamAuthorizedKeys : list TeamAuthKeys.

Lemma UserKeyFallback_global (conn : ConnMetadata) (key : PublicKey) (s : Store) :
  authorizes authorizedKeys key →
  UserKeyFallback_closure AuthorizeTeam authorizedKeys teamAuthorizedKeys
    conn key s = Returns accepted s.
Proof.
  intros Hin. unfold UserKeyFallback_closure.
  by rewrite rangeAuthorizedKeys_match.
Qed.

Lemma UserKeyFallback_team (conn : ConnMetadata) (key : PublicKey)
    (teamKeys : TeamAuthKeys) (s : Store) :
  ¬ authorizes authorizedKeys key →
  firstMatch teamAuthorizedKeys key teamKeys →
  UserKeyFallback_closure AuthorizeTeam authorizedKeys teamAuthorizedKeys
    conn key s
  = (AuthorizeTeam (sessionOf conn) (Team teamKeys);; mret accepted) s.
Proof.
  intros Hglobal Hfirst. unfold UserKeyFallback_closure.
  rewrite rangeAuthorizedKeys_no_match by done.
  unfold mbind, M_bind.
  rewrite (rangeTeamAuthorizedKeys_first _ _ _ _ teamKeys) by done.
  unfold mbind, M_bind. by destruct (AuthorizeTeam _ _ s).
Qed.

Lemma UserKeyFallback_unknown (conn : ConnMetadata) (key : PublicKey) (s : Store) :
  ¬ authorizes authorizedKeys key →
  ¬ teamAuthorizes teamAuthorizedKeys key →
  UserKeyFallback_closure AuthorizeTeam authorizedKeys teamAuthorizedKeys
    conn key s = Returns (None, Some "unknown public key") s.
Proof.
  intros Hglobal Hteam. unfold UserKeyFallback_closure.
  rewrite rangeAuthorizedKeys_no_match by done.
  unfold mbind, M_bind.
  by rewrite rangeTeamAuthorizedKeys_no_match.
Qed.

End UserKeyFallback.

(** ** Authentication against the global and the team key sets *)

Lemma bindCalls_global (authorizedKeys : list PublicKey)
    (teams : list TeamAuthKeys) (conn : ConnMetadata) (key : PublicKey) :
  authorizes authorizedKeys key → bindCalls authorizedKeys teams conn key = [].
Proof.
  intros Hin. unfold bindCalls. by rewrite UserKeyFallback_global.
Qed.

Lemma bindCalls_team (authorizedKeys : list PublicKey)
    (teams : list TeamAuthKeys) (conn : ConnMetadata) (key : PublicKey)
    (teamKeys : TeamAuthKeys) :
  ¬ authorizes authorizedKeys key → firstMatch teams key teamKeys →
  bindCalls authorizedKeys teams conn key = [(sessionOf conn, Team teamKeys)].
Proof.
  intros Hglobal Hfirst. unfold bindCalls.
  by rewrite (UserKeyFallback_team _ _ _ _ _ teamKeys).
Qed.

Lemma bindCalls_no_team (authorizedKeys : list PublicKey)
    (teams : list TeamAuthKeys) (conn : ConnMetadata) (key : PublicKey) :
  ¬ teamAuthorizes teams key → bindCalls authorizedKeys teams conn key = [].
Proof.
  intros Hteam. destruct (authorizes_dec authorizedKeys key) as [Hin | Hnot].
  - by apply bindCalls_global.
  - unfold bindCalls. by rewrite UserKeyFallback_unknown.
Qed.

(** C2: a key of the global set is accepted for every session, on every
    registry and whatever the team key sets hold (the key may be in some
    of them as well): the closure returns [nil, nil], the registry is the
    one it started from, and [AuthorizeTeam] is not called. *)
Theorem global_key_accepted_without_binding {Store : Type}
    (AuthorizeTeam : string → string → M Store ())
    (authorizedKeys : list PublicKey) (teams : list TeamAuthKeys)
    (conn : ConnMetadata) (key : PublicKey) (s : Store) :
  authorizes authorizedKeys key →
  UserKeyFallback_closure AuthorizeTeam authorizedKeys teams conn key s
  = Returns accepted s
  ∧ bindCalls authorizedKeys teams conn key = [].
Proof.
  intros Hin. split.
  - by apply UserKeyFallback_global.
  - by apply bindCalls_global.
Qed.

Lemma global_key_accepted_without_binding_witness :
  authorizes sample_authorizedKeys keyGA
  ∧ teamAuthorizes sample_teams keyGA
  ∧ UserKeyFallback_closure sessionTeam_AuthorizeTeam sample_authorizedKeys
      sample_teams sample_conn keyGA emptyRegistry
    = Returns accepted emptyRegistry
  ∧ bindCalls sample_authorizedKeys sample_teams sample_conn keyGA = [].
Proof.
  assert (Hin : authorizes sample_authorizedKeys keyGA).
  { exists keyGA. split; [|reflexivity].
    apply elem_of_cons; right; apply elem_of_cons; left; reflexivity. }
  split; [exact Hin|]. split.
  - exists {| Team := "a"; AuthKeys := [keyA; keyAB; keyGA] |}.
    split; [apply elem_of_cons; left; reflexivity|].
    apply authorizes_decide. reflexivity.
  - exact (global_key_accepted_without_binding sessionTeam_AuthorizeTeam
             sample_authorizedKeys sample_teams sample_conn keyGA
             emptyRegistry Hin).
Defined.

(** C3: a key that is in neither the global set nor any team's set is
    rejected with the error "unknown public key", and the rejection has no
    effect: the registry is the one the closure started from, and
    [AuthorizeTeam] is not called. *)
Theorem unknown_key_rejected_without_effect {Store : Type}
    (AuthorizeTeam : string → string → M Store ())
    (authorizedKeys : list PublicKey) (teams : list TeamAuthKeys)
    (conn : ConnMetadata) (key : PublicKey) (s : Store) :
  ¬ authorizes authorizedKeys key →
  ¬ teamAuthorizes teams key →
  UserKeyFallback_closure AuthorizeTeam authorizedKeys teams conn key s
  = Returns (None, Some "unknown public key") s
  ∧ bindCalls authorizedKeys teams conn key = [].
Proof.
  intros Hglobal Hteam. split.
  - by apply UserKeyFallback_unknown.
  - by apply bindCalls_no_team.
Qed.

Lemma not_teamAuthorizes_sample_keyX : ¬ teamAuthorizes sample_teams keyX.
Proof.
  intros (t & Hin & Hkey).
  apply elem_of_cons in Hin as [-> | Hin];
    [|apply elem_of_cons in Hin as [-> | Hin]; [|by apply elem_of_nil in Hin]];
    by apply authorizes_decide in Hkey.
Qed.

Lemma unknown_key_rejected_without_effect_witness :
  UserKeyFallback_closure sessionTeam_AuthorizeTeam sample_authorizedKeys
    sample_teams sample_conn keyX emptyRegistry
  = Returns (None, Some "unknown public key") emptyRegistry
  ∧ bindCalls sample_authorizedKeys sample_teams sample_conn keyX = [].
Proof.
  apply unknown_key_rejected_without_effect.
  - apply not_authorizes_decide. reflexivity.
  - exact not_teamAuthorizes_sample_keyX.
Defined.

(** C5: in one call of the closure with a key that is not global, the
    team of the first key set, in the order of the slice, that holds the
    key is the one bound, whatever later key sets hold: the closure is one
    call of [AuthorizeTeam] for that team followed at once by the return
    of [nil, nil], so that exactly one call is recorded.  And when no team
    key set holds the key, no call of [AuthorizeTeam] is made at all. *)
Theorem first_matching_team_bound_once (authorizedKeys : list PublicKey)
    (teams : list TeamAuthKeys) (conn : ConnMetadata) (key : PublicKey) :
  (∀ teamKeys : TeamAuthKeys,
     ¬ authorizes authorizedKeys key →
     firstMatch teams key teamKeys →
     bindCalls authorizedKeys teams conn key
     = [(sessionOf conn, Team teamKeys)]
     ∧ ∀ (Store : Type) (AuthorizeTeam : string → string → M Store ())
         (s : Store),
         UserKeyFallback_closure AuthorizeTeam authorizedKeys teams conn key s
         = (AuthorizeTeam (sessionOf conn) (Team teamKeys);; mret accepted) s)
  ∧ (¬ teamAuthorizes teams key →
     bindCalls authorizedKeys teams conn key = []).
Proof.
  split.
  - intros teamKeys Hglobal Hfirst. split.
    + by apply bindCalls_team.
    + intros Store AuthorizeTeam s. by apply UserKeyFallback_team.
  - apply bindCalls_no_team.
Qed.

Lemma first_matching_team_bound_once_witness :
  authorizes [keyA; keyAB; keyGA] keyAB
  ∧ authorizes [keyB; keyAB] keyAB
  ∧ bindCalls sample_authorizedKeys sample_teams sample_conn keyAB
    = [("s1", "a")]
  ∧ bindCalls sample_authorizedKeys sample_teams sample_conn keyX = [].
Proof.
  assert (Ha : authorizes [keyA; keyAB; keyGA] keyAB)
    by (apply authorizes_decide; reflexivity).
  split; [exact Ha|].
  split; [apply authorizes_decide; reflexivity|].
  destruct (first_matching_team_bound_once sample_authorizedKeys sample_teams
              sample_conn keyAB) as [Hfirst _].
  destruct (first_matching_team_bound_once sample_authorizedKeys sample_teams
              sample_conn keyX) as [_ Hnone].
  split.
  - apply (Hfirst {| Team := "a"; AuthKeys := [keyA; keyAB; keyGA] |}).
    + apply not_authorizes_decide. reflexivity.
    + exists [], [{| Team := "b"; AuthKeys := [keyB; keyAB] |}].
      split; [reflexivity|]. split; [apply Forall_nil_2 | exact Ha].
  - apply Hnone. exact not_teamAuthorizes_sample_keyX.
Defined.

Lemma teamAuthorizes_dec (teams : list TeamAuthKeys) (key : PublicKey) :
  teamAuthorizes teams key ∨ ¬ teamAuthorizes teams key.
Proof.
  induction teams as [|t teams IH].
  - right. intros (t & Hin & _). by apply elem_of_nil in Hin.
  - destruct (authorizes_dec (AuthKeys t) key) as [Ht | Ht].
    { left. exists t. split; [apply elem_of_cons; by left | done]. }
    destruct IH as [(t' & Hin & Hkey) | Hnot].
    + left. exists t'. split; [apply elem_of_cons; by right | done].
    + right. intros (t' & [-> | Hin]%elem_of_cons & Hkey); [done|].
      apply Hnot. by exists t'.
Qed.

(** Whatever the registry does, a key that the closure accepts is in the
    global set or in a team's set. *)
Lemma UserKeyFallback_accepts_only_known {Store : Type}
    (AuthorizeTeam : string → string → M Store ())
    (authorizedKeys : list PublicKey) (teams : list TeamAuthKeys)
    (conn : ConnMetadata) (key : PublicKey) (s s' : Store)
    (perms : option Permissions) :
  UserKeyFallback_closure AuthorizeTeam authorizedKeys teams conn key s
  = Returns (perms, None) s' →
  perms = None ∧ (authorizes authorizedKeys key ∨ teamAuthorizes teams key).
Proof.
  intros Hrun.
  destruct (authorizes_dec authorizedKeys key) as [Hglobal | Hglobal].
  { rewrite UserKeyFallback_global in Hrun by done.
    injection Hrun as <- _. split; [done | by left]. }
  destruct (teamAuthorizes_dec teams key) as [Hteam | Hteam].
  - destruct (teamAuthorizes_first teams key Hteam) as (t & _ & Hfirst).
    rewrite (UserKeyFallback_team _ _ _ _ _ t) in Hrun by done.
    unfold mbind, M_bind in Hrun.
    destruct (AuthorizeTeam _ _ s); [|done].
    injection Hrun as <- _. split; [done | by right].
  - by rewrite UserKeyFallback_unknown in Hrun.
Qed.

(** ** The registry of the specification *)

Lemma AuthorizeTeam_bound_same (s : sessionTeam) (sessionID T : string) :
  sessionTeam_Lookup s sessionID = Some T →
  sessionTeam_AuthorizeTeam sessionID T s = Returns () s.
Proof.
  unfold sessionTeam_Lookup, sessionTeam_AuthorizeTeam. intros ->.
  by rewrite decide_True.
Qed.

Lemma AuthorizeTeam_bound_other (s : sessionTeam) (sessionID T T' : string) :
  sessionTeam_Lookup s sessionID = Some T → T' ≠ T →
  sessionTeam_AuthorizeTeam sessionID T' s
  = Panics (InvariantViolation sessionID T T') s.
Proof.
  unfold sessionTeam_Lookup, sessionTeam_AuthorizeTeam. intros -> Hne.
  by rewrite decide_False.
Qed.

Lemma AuthorizeTeam_unbound (s : sessionTeam) (sessionID T : string) :
  sessionTeam_Lookup s sessionID = None →
  sessionTeam_AuthorizeTeam sessionID T s
  = Returns () {| sessionTeams := <[sessionID := T]> (sessionTeams s) |}.
Proof.
  unfold sessionTeam_Lookup, sessionTeam_AuthorizeTeam. by intros ->.
Qed.

(** A bind that returns leaves the session bound to the team asked for,
    and every other session as it was. *)
Lemma AuthorizeTeam_returns (s s' : sessionTeam) (sessionID T : string) :
  sessionTeam_AuthorizeTeam sessionID T s = Returns () s' →
  sessionTeam_Lookup s' sessionID = Some T
  ∧ ∀ other : string, other ≠ sessionID →
      sessionTeam_Lookup s' other = sessionTeam_Lookup s other.
Proof.
  unfold sessionTeam_AuthorizeTeam, sessionTeam_Lookup.
  destruct (sessionTeams s !! sessionID) as [bound|] eqn:E.
  - destruct (decide (bound = T)) as [-> | Hne]; [|done].
    by intros [= <-].
  - intros [= <-]. simpl. split; [apply lookup_insert_eq|].
    intros other Hne. by apply lookup_insert_ne.
Qed.

(** C4: on the registry of the specification, binding a session that is
    bound to [T] to [T] again returns and changes nothing; binding it to
    another tenant [T'] panics with [InvariantViolation] and leaves the
    registry, and so the binding to [T], as it was.  From any registry,
    a bind that returned can be repeated: the second call returns and
    changes nothing. *)
Theorem AuthorizeTeam_idempotent_or_violation (s : sessionTeam)
    (sessionID T : string) :
  (sessionTeam_Lookup s sessionID = Some T →
   sessionTeam_AuthorizeTeam sessionID T s = Returns () s
   ∧ ∀ T' : string, T' ≠ T →
       sessionTeam_AuthorizeTeam sessionID T' s
       = Panics (InvariantViolation sessionID T T') s)
  ∧ (∀ s' : sessionTeam,
       sessionTeam_AuthorizeTeam sessionID T s = Returns () s' →
       sessionTeam_AuthorizeTeam sessionID T s' = Returns () s'
       ∧ sessionTeam_Lookup s' sessionID = Some T).
Proof.
  split.
  - intros Hbound. split.
    + by apply AuthorizeTeam_bound_same.
    + intros T' Hne. by apply AuthorizeTeam_bound_other.
  - intros s' Hrun. apply AuthorizeTeam_returns in Hrun as [Hbound _].
    split; [by apply AuthorizeTeam_bound_same | done].
Qed.

(** The same through the closure: a key whose first team is [T] is
    accepted again on a session bound to [T], and a key whose first team
    is another one makes the closure panic, with the registry as it was. *)
Lemma UserKeyFallback_on_bound_session (authorizedKeys : list PublicKey)
    (teams : list TeamAuthKeys) (conn : ConnMetadata) (key : PublicKey)
    (teamKeys : TeamAuthKeys) (s : sessionTeam) (T : string) :
  ¬ authorizes authorizedKeys key →
  firstMatch teams key teamKeys →
  sessionTeam_Lookup s (sessionOf conn) = Some T →
  UserKeyFallback_closure sessionTeam_AuthorizeTeam authorizedKeys teams
    conn key s
  = if decide (Team teamKeys = T) then Returns accepted s
    else Panics (InvariantViolation (sessionOf conn) T (Team teamKeys)) s.
Proof.
  intros Hglobal Hfirst Hbound.
  rewrite (UserKeyFallback_team _ _ _ _ _ teamKeys) by done.
  unfold mbind, M_bind. destruct (decide (Team teamKeys = T)) as [-> | Hne].
  - by rewrite AuthorizeTeam_bound_same.
  - by rewrite (AuthorizeTeam_bound_other _ _ T).
Qed.

Lemma AuthorizeTeam_idempotent_or_violation_witness :
  sessionTeam_AuthorizeTeam "s1" "b" boundToB = Returns () boundToB
  ∧ sessionTeam_AuthorizeTeam "s1" "a" boundToB
    = Panics (InvariantViolation "s1" "b" "a") boundToB
  ∧ sessionTeam_AuthorizeTeam "s1" "b" emptyRegistry = Returns () boundToB.
Proof.
  destruct (AuthorizeTeam_idempotent_or_violation boundToB "s1" "b")
    as [Hbound _].
  destruct Hbound as [Hsame Hother]; [apply lookup_insert_eq|].
  split; [exact Hsame|]. split.
  - apply Hother. discriminate.
  - reflexivity.
Defined.

(** ** Authentication with a team key *)

Lemma exclusivelyOf_sample_keyA :
  exclusivelyOf "a" sample_authorizedKeys sample_teams keyA.
Proof.
  split; [|split].
  - exists {| Team := "a"; AuthKeys := [keyA; keyAB; keyGA] |}.
    split; [apply elem_of_cons; by left|].
    split; [done | by apply authorizes_decide].
  - intros t Hin Hkey.
    apply elem_of_cons in Hin as [-> | Hin]; [done|].
    apply elem_of_cons in Hin as [-> | Hin]; [|by apply elem_of_nil in Hin].
    by apply authorizes_decide in Hkey.
  - by apply not_authorizes_decide.
Qed.



(** On the registry of the specification the bind returns when the
    session is unbound or bound to [T] already: a key that is of team [T]
    only is then accepted, the lookup of the session gives [T], and the
    other sessions are as before. *)
Lemma tenant_key_binds_free_session (T : string)
    (authorizedKeys : list PublicKey) (teams : list TeamAuthKeys)
    (conn : ConnMetadata) (key : PublicKey) (s : sessionTeam) :
  exclusivelyOf T authorizedKeys teams key →
  sessionTeam_Lookup s (sessionOf conn) = None
  ∨ sessionTeam_Lookup s (sessionOf conn) = Some T →
  ∃ s' : sessionTeam,
    UserKeyFallback_closure sessionTeam_AuthorizeTeam authorizedKeys teams
      conn key s = Returns accepted s'
    ∧ sessionTeam_Lookup s' (sessionOf conn) = Some T
    ∧ ∀ other : string, other ≠ sessionOf conn →
        sessionTeam_Lookup s' other = sessionTeam_Lookup s other.
Proof.
  intros Hexcl Hfree.
  destruct (exclusivelyOf_first _ _ _ _ Hexcl) as (t & Hfirst & <-).
  destruct Hexcl as (_ & _ & Hglobal).
  assert (Hbind : ∃ s', sessionTeam_AuthorizeTeam (sessionOf conn) (Team t) s
                        = Returns () s').
  { destruct Hfree as [Hnone | Hsame].
    - eexists. by apply AuthorizeTeam_unbound.
    - exists s. by apply AuthorizeTeam_bound_same. }
  destruct Hbind as [s' Hbind]. exists s'.
  rewrite (UserKeyFallback_team _ _ _ _ _ t) by done.
  unfold mbind, M_bind. rewrite Hbind.
  split; [done|]. by apply AuthorizeTeam_returns.
Qed.

(** ** The certificate checker *)

Section certificates.

Context {Store Signer Config HostKeyT : Type}.
Variable AuthorizeTeam : string → string → M Store ().
Variable authorizedKeys : list PublicKey.
Variable teamAuthorizedKeys : list TeamAuthKeys.
Variable CheckCert : string → PublicKey → option error.
Variable DefaultSSHConfig : Config.
Variable NewSignerFromKey : HostKeyT → Completion (Signer + error).

(** The callback of a configuration that [configureSSHServer] returned is
    [Authenticate] on [certChecker]. *)
Lemma configureSSHServer_callback (HostKey : option HostKeyT)
    (config : ServerConfig Store Signer Config)
    (callback : ConnMetadata → PublicKey → M Store Verdict) :
  configureSSHServer AuthorizeTeam authorizedKeys teamAuthorizedKeys
    CheckCert DefaultSSHConfig NewSignerFromKey HostKey
  = Completes (Some config, None) →
  PublicKeyCallback config = Some callback →
  callback
  = λ conn key,
      Authenticate CheckCert
        (certChecker AuthorizeTeam authorizedKeys teamAuthorizedKeys) conn key.
Proof.
  unfold configureSSHServer.
  destruct (ssh_NewSignerFromKey NewSignerFromKey HostKey)
    as [[signer | err] | reason]; [|done|done].
  intros [= <-]. simpl. by intros [= <-].
Qed.

(** A certificate is never accepted: it is turned down for its type or
    for its signing authority, before [CheckCert] is asked. *)
Lemma Authenticate_certificate (conn : ConnMetadata) (wire : list byte)
    (certType : Z) (signatureKey : PublicKey) (perms : Permissions)
    (s : Store) :
  ∃ err : error,
    Authenticate CheckCert
      (certChecker AuthorizeTeam authorizedKeys teamAuthorizedKeys) conn
      (Certificate wire certType signatureKey perms) s
    = Returns (None, Some err) s.
Proof.
  simpl. destruct (negb (certType =? UserCert)%Z); eauto.
Qed.

(** C9: the two authority predicates of the checker are constantly
    false; and the callback of the configured server accepts a key only
    if it is a plain key, not a certificate, whose encoding is that of a
    key of the global set or of a team's set. *)
Theorem no_certificate_authority (HostKey : option HostKeyT) :
  (∀ key : PublicKey,
     IsUserAuthority
       (certChecker AuthorizeTeam authorizedKeys teamAuthorizedKeys) key
     = false)
  ∧ (∀ (key : PublicKey) (address : string),
       IsHostAuthority
         (certChecker AuthorizeTeam authorizedKeys teamAuthorizedKeys)
         key address
       = false)
  ∧ (∀ (config : ServerConfig Store Signer Config)
       (callback : ConnMetadata → PublicKey → M Store Verdict)
       (conn : ConnMetadata) (key : PublicKey) (s s' : Store)
       (perms : option Permissions),
       configureSSHServer AuthorizeTeam authorizedKeys teamAuthorizedKeys
         CheckCert DefaultSSHConfig NewSignerFromKey HostKey
       = Completes (Some config, None) →
       PublicKeyCallback config = Some callback →
       callback conn key s = Returns (perms, None) s' →
       (∃ wire : list byte, key = PlainKey wire)
       ∧ (authorizes authorizedKeys key
          ∨ teamAuthorizes teamAuthorizedKeys key)).
Proof.
  split; [done|]. split; [done|].
  intros config callback conn key s s' perms Hconfig Hcallback Hrun.
  rewrite (configureSSHServer_callback _ _ _ Hconfig Hcallback) in Hrun.
  destruct key as [wire | wire certType signatureKey certPerms].
  - split; [by exists wire|]. simpl in Hrun.
    by apply UserKeyFallback_accepts_only_known in Hrun as [_ Hknown].
  - destruct (Authenticate_certificate conn wire certType signatureKey
                certPerms s) as [err Herr].
    rewrite Herr in Hrun. discriminate.
Qed.

End certificates.

Lemma no_certificate_authority_witness :
  ∃ (config : ServerConfig sessionTeam () ())
    (callback : ConnMetadata → PublicKey → M sessionTeam Verdict),
    configureSSHServer sessionTeam_AuthorizeTeam sample_authorizedKeys
      sample_teams sample_CheckCert () sample_NewSignerFromKey
      (Some {| PrivateKey := () |})
    = Completes (Some config, None)
    ∧ PublicKeyCallback config = Some callback
    ∧ callback sample_conn keyB emptyRegistry = Returns accepted boundToB
    ∧ (∃ wire : list byte, keyB = PlainKey wire)
    ∧ (authorizes sample_authorizedKeys keyB
       ∨ teamAuthorizes sample_teams keyB).
Proof.
  eexists. eexists.
  split; [reflexivity|]. split; [reflexivity|]. split; [reflexivity|].
  destruct (no_certificate_authority sessionTeam_AuthorizeTeam
              sample_authorizedKeys sample_teams sample_CheckCert ()
              sample_NewSignerFromKey (Some {| PrivateKey := () |}))
    as (_ & _ & Haccept).
  eapply (Haccept _ _ sample_conn keyB emptyRegistry boundToB None);
    reflexivity.
Defined.

(** ** [Runner] *)

Lemma ParseDuration_default :
  time.ParseDuration HeartbeatInterval_default
  = time.Parsed (30 * time.Second)%Z.
Proof. reflexivity. Qed.

Section Runner.

Context {rsaPrivateKey Signer Config : Type}.
Variable AuthorizeTeam : string → string → M sessionTeam ().
Variable CheckCert : string → PublicKey → option error.
Variable DefaultSSHConfig : Config.
Variable NewSignerFromKey :
  PrivateKeyFlag rsaPrivateKey → Completion (Signer + error).
Variable rangeOrder :
  gmap string AuthorizedKeysFlag → list (string * AuthorizedKeysFlag).

(** The calls on the logger do not depend on the private keys: the
    warning is there exactly when the global list and the team map are
    both empty. *)
Lemma Runner_log (cmd : TSACommand rsaPrivateKey) (args : list string)
    (webConfig : WebConfig) :
  (Runner AuthorizeTeam CheckCert DefaultSSHConfig NewSignerFromKey
     rangeOrder cmd args webConfig).1
  = if decide (length (Keys (AuthorizedKeys cmd))
               + size (TeamAuthorizedKeys cmd) = 0)
    then [Info (constructLogger cmd webConfig)
            "starting-tsa-without-authorized-keys"]
    else [].
Proof.
  unfold Runner, configureSSHServer. simpl.
  destruct (ssh_NewSignerFromKey NewSignerFromKey (HostKey cmd))
    as [[signer | e] | reason]; simpl; [|done|done].
  by destruct (SessionSigningKey cmd).
Qed.

(** With a host key that gives a signer and a session signing key,
    [Runner] returns a runner and no error; the server of that runner is
    built from the command as the literal says. *)
Lemma Runner_succeeds (cmd : TSACommand rsaPrivateKey) (args : list string)
    (webConfig : WebConfig) (signer : Signer)
    (key : PrivateKeyFlag rsaPrivateKey) :
  ssh_NewSignerFromKey NewSignerFromKey (HostKey cmd)
  = Completes (inl signer) →
  SessionSigningKey cmd = Some key →
  ∃ runner : serverRunner rsaPrivateKey Signer Config,
    (Runner AuthorizeTeam CheckCert DefaultSSHConfig NewSignerFromKey
     rangeOrder cmd args webConfig).2 = Completes (Some runner, None)
    ∧ heartbeatInterval (runner_server runner) = HeartbeatInterval cmd
    ∧ cprInterval (runner_server runner) = (1 * time.Second)%Z
    ∧ sessionTeam_ (runner_server runner) = emptyRegistry
    ∧ runner_listenAddr runner = Sprintf_addr (BindIP cmd) (BindPort cmd).
Proof.
  intros Hsigner Hkey. unfold Runner, configureSSHServer. simpl.
  rewrite Hsigner, Hkey. simpl. eexists. split; [reflexivity|]. done.
Qed.

(** An error of [Runner] comes from the host key or from the missing
    session signing key. *)
Lemma Runner_error (cmd : TSACommand rsaPrivateKey) (args : list string)
    (webConfig : WebConfig)
    (result : option (serverRunner rsaPrivateKey Signer Config))
    (err : error) :
  (Runner AuthorizeTeam CheckCert DefaultSSHConfig NewSignerFromKey
     rangeOrder cmd args webConfig).2 = Completes (result, Some err) →
  (∃ e : error,
     ssh_NewSignerFromKey NewSignerFromKey (HostKey cmd) = Completes (inr e))
  ∨ SessionSigningKey cmd = None.
Proof.
  unfold Runner, configureSSHServer. simpl.
  destruct (ssh_NewSignerFromKey NewSignerFromKey (HostKey cmd))
    as [[signer | e] | reason]; [|by eauto|done].
  destruct (SessionSigningKey cmd); [done | by right].
Qed.

(** C6: with an empty global list and no team configured, [Runner] calls
    [logger.Info] with "starting-tsa-without-authorized-keys", whatever
    else happens; it returns a runner and no error as soon as the host
    key gives a signer and the session signing key is there; and an error
    it returns is due to one of these two keys, never to the absence of
    authorized keys. *)
Theorem Runner_without_authorized_keys (cmd : TSACommand rsaPrivateKey)
    (args : list string) (webConfig : WebConfig) :
  Keys (AuthorizedKeys cmd) = [] →
  TeamAuthorizedKeys cmd = ∅ →
  (Runner AuthorizeTeam CheckCert DefaultSSHConfig NewSignerFromKey
     rangeOrder cmd args webConfig).1
  = [Info (constructLogger cmd webConfig)
       "starting-tsa-without-authorized-keys"]
  ∧ (∀ (signer : Signer) (key : PrivateKeyFlag rsaPrivateKey),
       ssh_NewSignerFromKey NewSignerFromKey (HostKey cmd)
       = Completes (inl signer) →
       SessionSigningKey cmd = Some key →
       ∃ runner : serverRunner rsaPrivateKey Signer Config,
         (Runner AuthorizeTeam CheckCert DefaultSSHConfig NewSignerFromKey
     rangeOrder cmd args webConfig).2 = Completes (Some runner, None))
  ∧ (∀ (result : option (serverRunner rsaPrivateKey Signer Config))
       (err : error),
       (Runner AuthorizeTeam CheckCert DefaultSSHConfig NewSignerFromKey
     rangeOrder cmd args webConfig).2 = Completes (result, Some err) →
       (∃ e : error,
          ssh_NewSignerFromKey NewSignerFromKey (HostKey cmd)
          = Completes (inr e))
       ∨ SessionSigningKey cmd = None).
Proof.
  intros Hglobal Hteams. split; [|split].
  - rewrite Runner_log, Hglobal, Hteams. by rewrite map_size_empty.
  - intros signer key Hsigner Hkey.
    destruct (Runner_succeeds cmd args webConfig signer key Hsigner Hkey)
      as (runner & Hrun & _).
    by exists runner.
  - intros result err. apply Runner_error.
Qed.

(** C7, amended: without a session signing key [Runner] produces no
    runner, so that there is nothing to listen with; and it returns an
    error whenever [ssh.NewSignerFromKey] returns on the host key, the
    error being "missing session signing key" when the host key gave a
    signer. *)
Theorem Runner_without_signing_key (cmd : TSACommand rsaPrivateKey)
    (args : list string) (webConfig : WebConfig) :
  SessionSigningKey cmd = None →
  (∀ (runner : serverRunner rsaPrivateKey Signer Config)
     (err : option error),
     (Runner AuthorizeTeam CheckCert DefaultSSHConfig NewSignerFromKey
     rangeOrder cmd args webConfig).2 ≠ Completes (Some runner, err))
  ∧ (∀ signed : Signer + error,
       ssh_NewSignerFromKey NewSignerFromKey (HostKey cmd)
       = Completes signed →
       ∃ err : error,
         (Runner AuthorizeTeam CheckCert DefaultSSHConfig NewSignerFromKey
     rangeOrder cmd args webConfig).2 = Completes (None, Some err)
         ∧ ∀ signer : Signer,
             signed = inl signer → err = "missing session signing key").
Proof.
  intros Hkey. unfold Runner, configureSSHServer. simpl.
  destruct (ssh_NewSignerFromKey NewSignerFromKey (HostKey cmd))
    as [[signer | e] | reason]; simpl.
  - rewrite Hkey. split; [done|]. intros signed _. by eexists.
  - split; [done|]. intros signed [= <-]. by eexists.
  - split; [done|]. by intros signed.
Qed.

(** C8: the server that [Runner] builds has two interval fields: the
    heartbeat interval, which is the one of the command, and the interval
    of the continuous process report, which is one second whatever the
    command says.  When the heartbeat interval is at its default, it is
    thirty seconds, and the other interval is strictly shorter. *)
Theorem Runner_intervals (cmd : TSACommand rsaPrivateKey)
    (args : list string) (webConfig : WebConfig) (signer : Signer)
    (key : PrivateKeyFlag rsaPrivateKey) :
  ssh_NewSignerFromKey NewSignerFromKey (HostKey cmd)
  = Completes (inl signer) →
  SessionSigningKey cmd = Some key →
  ∃ runner : serverRunner rsaPrivateKey Signer Config,
    (Runner AuthorizeTeam CheckCert DefaultSSHConfig NewSignerFromKey
     rangeOrder cmd args webConfig).2 = Completes (Some runner, None)
    ∧ heartbeatInterval (runner_server runner) = HeartbeatInterval cmd
    ∧ cprInterval (runner_server runner) = time.Second
    ∧ time.Second = 1000000000%Z
    ∧ (defaultHeartbeatInterval cmd →
       heartbeatInterval (runner_server runner) = (30 * time.Second)%Z
       ∧ (cprInterval (runner_server runner)
          < heartbeatInterval (runner_server runner))%Z).
Proof.
  intros Hsigner Hkey.
  destruct (Runner_succeeds cmd args webConfig signer key Hsigner Hkey)
    as (runner & Hrun & Hheartbeat & Hcpr & _).
  exists runner. split; [done|]. split; [done|].
  split; [by rewrite Hcpr|]. split; [done|].
  unfold defaultHeartbeatInterval. rewrite ParseDuration_default.
  intros [= Hdefault]. rewrite Hheartbeat, Hcpr, <- Hdefault.
  split; [done|]. unfold time.Second, time.Millisecond, time.Microsecond,
    time.Nanosecond. lia.
Qed.

End Runner.

Lemma Runner_without_authorized_keys_witness :
  (sample_Runner sample_cmd).1
  = [Info {| component := "tsa"; data := [] |}
       "starting-tsa-without-authorized-keys"]
  ∧ ∃ runner : serverRunner () () (),
      (sample_Runner sample_cmd).2 = Completes (Some runner, None).
Proof.
  destruct (Runner_without_authorized_keys sessionTeam_AuthorizeTeam
              sample_CheckCert () sample_NewSignerFromKey map_to_list
              sample_cmd [] sample_webConfig eq_refl eq_refl)
    as (Hlog & Hruns & _).
  split; [exact Hlog|].
  exact (Hruns () {| PrivateKey := () |} eq_refl eq_refl).
Defined.

(** C7, as stated, fails: with neither private key [Runner] does not
    return an error.  [ssh.NewSignerFromKey] is called on the nil host
    key and panics, before the session signing key is looked at. *)
Lemma Runner_without_signing_key_counterexample :
  SessionSigningKey sample_cmd_without_keys = None
  ∧ (sample_Runner sample_cmd_without_keys).2 = RuntimePanic nilDereference
  ∧ ¬ (∃ (result : option (serverRunner () () ())) (err : error),
         (sample_Runner sample_cmd_without_keys).2
         = Completes (result, Some err)).
Proof.
  split; [reflexivity|]. split; [reflexivity|].
  intros (result & err & Hrun). discriminate Hrun.
Qed.

Lemma Runner_without_signing_key_witness :
  (sample_Runner sample_cmd_unsigned).2
  = Completes (None, Some "missing session signing key").
Proof.
  destruct (Runner_without_signing_key sessionTeam_AuthorizeTeam
              sample_CheckCert () sample_NewSignerFromKey map_to_list
              sample_cmd_unsigned [] sample_webConfig eq_refl)
    as (_ & Herror).
  destruct (Herror (inl ()) eq_refl) as (err & Hrun & Herr).
  rewrite <- (Herr () eq_refl). exact Hrun.
Defined.

Lemma Runner_intervals_witness :
  defaultHeartbeatInterval sample_cmd
  ∧ ∃ runner : serverRunner () () (),
      (sample_Runner sample_cmd).2 = Completes (Some runner, None)
      ∧ heartbeatInterval (runner_server runner) = 30000000000%Z
      ∧ cprInterval (runner_server runner) = 1000000000%Z.
Proof.
  assert (Hdefault : defaultHeartbeatInterval sample_cmd) by reflexivity.
  split; [exact Hdefault|].
  destruct (Runner_intervals sessionTeam_AuthorizeTeam sample_CheckCert ()
              sample_NewSignerFromKey map_to_list sample_cmd []
              sample_webConfig () {| PrivateKey := () |} eq_refl eq_refl)
    as (runner & Hrun & Hheartbeat & Hcpr & Hsecond & _).
  exists runner. split; [exact Hrun|]. split; [exact Hheartbeat|].
  rewrite Hcpr. exact Hsecond.
Defined.

(** ** The presenter *)

Section present_correct.

Context {dbPipeline atcPipeline : Type}.
Variable Pipeline : dbPipeline → atcPipeline.
Variable zero : atcPipeline.

(** Loop invariant: when the indices below [i] are done, the first [i]
    slots hold the presented pipelines and the [k] others are untouched;
    the rest of the loop then ends with every slot presented. *)
Lemma Pipelines_range_from (savedPipelines : list dbPipeline) (k i : nat) :
  i + k = length savedPipelines →
  Pipelines_range Pipeline savedPipelines (seq i k)
    (map Pipeline (take i savedPipelines) ++ replicate k zero)
  = Some (map Pipeline savedPipelines).
Proof.
  revert i. induction k as [|k IH]; intros i Hlen; simpl.
  - rewrite Nat.add_0_r in Hlen. subst i.
    by rewrite firstn_all, app_nil_r.
  - destruct (lookup_lt_is_Some_2 savedPipelines i) as [p Hp]; [lia|].
    unfold Pipelines_body. rewrite Hp.
    assert (Hi : length (map Pipeline (take i savedPipelines)) = i).
    { rewrite length_map, length_take. lia. }
    rewrite decide_True by (rewrite length_app, Hi; simpl; lia).
    replace (<[i:=Pipeline p]>
               (map Pipeline (take i savedPipelines) ++ zero :: replicate k zero))
      with (map Pipeline (take (S i) savedPipelines) ++ replicate k zero).
    + apply IH. lia.
    + rewrite (take_S_r _ _ _ Hp), map_app, <- app_assoc. simpl.
      rewrite insert_app_r_alt by lia.
      by rewrite Hi, Nat.sub_diag.
Qed.

(** C10: [Pipelines] does not panic and returns the elementwise image of
    its argument under [Pipeline]: the result has the length of the
    input, and its i-th element is [Pipeline] of the i-th saved pipeline,
    in the same order. *)
Theorem Pipelines_is_map (savedPipelines : list dbPipeline) :
  ∃ pipelines : list atcPipeline,
    Pipelines Pipeline zero savedPipelines = Some pipelines
    ∧ pipelines = map Pipeline savedPipelines
    ∧ length pipelines = length savedPipelines
    ∧ ∀ i : nat, pipelines !! i = Pipeline <$> (savedPipelines !! i).
Proof.
  exists (map Pipeline savedPipelines). split; [|split; [done|split]].
  - unfold Pipelines, make.
    apply (Pipelines_range_from savedPipelines (length savedPipelines) 0). lia.
  - apply length_map.
  - intros i. apply list_lookup_fmap.
Qed.

End present_correct.

Example Pipelines_sample :
  Pipelines (λ n : nat, n * n) 0 [3; 1; 2] = Some [9; 1; 4].
Proof. reflexivity. Qed.

(** ** The sample configuration, run *)

Example UserKeyFallback_keyAB :
  UserKeyFallback_closure sessionTeam_AuthorizeTeam sample_authorizedKeys
    sample_teams sample_conn keyAB emptyRegistry
  = Returns accepted {| sessionTeams := <["s1" := "a"]> ∅ |}.
Proof. reflexivity. Qed.

Example UserKeyFallback_keyX :
  UserKeyFallback_closure sessionTeam_AuthorizeTeam sample_authorizedKeys
    sample_teams sample_conn keyX boundToB
  = Returns (None, Some "unknown public key") boundToB.
Proof. reflexivity. Qed.

Example Authenticate_user_certificate :
  Authenticate sample_CheckCert
    (certChecker sessionTeam_AuthorizeTeam sample_authorizedKeys sample_teams)
    sample_conn
    (Certificate [x0a] UserCert keyG
       {| CriticalOptions := ∅; Extensions := ∅ |})
    emptyRegistry
  = Returns
      (None, Some "ssh: certificate signed by unrecognized authority")
      emptyRegistry.
Proof. reflexivity. Qed.

Example ParseDuration_samples :
  time.ParseDuration "1500ms" = time.Parsed 1500000000%Z
  ∧ time.ParseDuration "2h" = time.Parsed 7200000000000%Z
  ∧ time.ParseDuration "1h30m" = time.Parsed 5400000000000%Z
  ∧ time.ParseDuration "-5s" = time.Parsed (-5000000000)%Z
  ∧ time.ParseDuration "30µs" = time.Parsed 30000%Z
  ∧ time.ParseDuration "30μs" = time.Parsed 30000%Z
  ∧ time.ParseDuration "0" = time.Parsed 0%Z
  ∧ time.ParseDuration "1.0s" = time.Parsed 1000000000%Z
  ∧ time.ParseDuration "1.5s" = time.NotModelled
  ∧ time.ParseDuration "s" = time.ParseError
  ∧ time.ParseDuration "30" = time.ParseError
  ∧ time.ParseDuration "" = time.ParseError
  ∧ time.ParseDuration "9223372036854775808ns" = time.ParseError
  ∧ time.ParseDuration "-9223372036854775808ns"
    = time.Parsed (-9223372036854775808)%Z.
Proof. repeat split; reflexivity. Qed.

Example Runner_sample_listenAddr :
  ∃ runner : serverRunner () () (),
    (sample_Runner sample_cmd).2 = Completes (Some runner, None)
    ∧ runner_listenAddr runner = "0.0.0.0:2222".
Proof. eexists. split; reflexivity. Qed.

(** * Part III: further properties of the code *)

(** ** What the [UserKeyFallback] closure looks at *)

Lemma authorizes_Marshal (keys : list PublicKey) (key key' : PublicKey) :
  Marshal key = Marshal key' → authorizes keys key → authorizes keys key'.
Proof. intros Heq (k & Hin & Hk). exists k. split; [done | congruence]. Qed.

Lemma firstMatch_Marshal (teams : list TeamAuthKeys) (key key' : PublicKey)
    (teamKeys : TeamAuthKeys) :
  Marshal key = Marshal key' →
  firstMatch teams key teamKeys → firstMatch teams key' teamKeys.
Proof.
  intros Heq (before & after & -> & Hbefore & Hkey).
  exists before, after. split; [done|]. split.
  - eapply Forall_impl; [exact Hbefore|]. intros t Ht Hin. apply Ht.
    by apply (authorizes_Marshal _ key').
  - by apply (authorizes_Marshal _ key).
Qed.

(** X1: the closure looks at the candidate key through its encoding only
    and at the connection through its session identifier only: two calls
    that agree on these two behave alike, on every registry. *)
Theorem UserKeyFallback_encoding_and_session {Store : Type}
    (AuthorizeTeam : string → string → M Store ())
    (authorizedKeys : list PublicKey) (teams : list TeamAuthKeys)
    (conn conn' : ConnMetadata) (key key' : PublicKey) (s : Store) :
  SessionID conn = SessionID conn' →
  Marshal key = Marshal key' →
  UserKeyFallback_closure AuthorizeTeam authorizedKeys teams conn key s
  = UserKeyFallback_closure AuthorizeTeam authorizedKeys teams conn' key' s.
Proof.
  intros Hsession Hkey.
  assert (Hsid : sessionOf conn = sessionOf conn')
    by (unfold sessionOf; by rewrite Hsession).
  destruct (authorizes_dec authorizedKeys key) as [Hglobal | Hglobal].
  { rewrite !UserKeyFallback_global; [done| |done].
    by apply (authorizes_Marshal _ key). }
  assert (Hglobal' : ¬ authorizes authorizedKeys key').
  { intros Hin. apply Hglobal. by apply (authorizes_Marshal _ key'). }
  destruct (teamAuthorizes_dec teams key) as [Hteam | Hteam].
  - destruct (teamAuthorizes_first teams key Hteam) as (t & _ & Hfirst).
    rewrite (UserKeyFallback_team _ _ _ conn key t) by done.
    rewrite (UserKeyFallback_team _ _ _ conn' key' t);
      [by rewrite Hsid | done | by apply (firstMatch_Marshal _ key)].
  - rewrite !UserKeyFallback_unknown; try done.
    intros (t & Hin & Ht). apply Hteam. exists t. split; [done|].
    by apply (authorizes_Marshal _ key').
Qed.

Lemma UserKeyFallback_encoding_and_session_witness :
  UserKeyFallback_closure sessionTeam_AuthorizeTeam sample_authorizedKeys
    sample_teams sample_conn keyB emptyRegistry
  = UserKeyFallback_closure sessionTeam_AuthorizeTeam sample_authorizedKeys
      sample_teams {| User := "other"; SessionID := [x73; x31] |}
      (Certificate [x0b] 2 keyG {| CriticalOptions := ∅; Extensions := ∅ |})
      emptyRegistry.
Proof.
  apply UserKeyFallback_encoding_and_session; reflexivity.
Defined.

(** X2: for a key that is of team [T] only, the closure is one call of
    [AuthorizeTeam] for the session and [T], followed by the return of
    [nil, nil]; this holds for every registry and does not depend on the
    order of the teams. *)
Theorem UserKeyFallback_exclusive_team {Store : Type}
    (AuthorizeTeam : string → string → M Store ())
    (T : string) (authorizedKeys : list PublicKey)
    (teams : list TeamAuthKeys) (conn : ConnMetadata) (key : PublicKey)
    (s : Store) :
  exclusivelyOf T authorizedKeys teams key →
  UserKeyFallback_closure AuthorizeTeam authorizedKeys teams conn key s
  = (AuthorizeTeam (sessionOf conn) T;; mret accepted) s
  ∧ bindCalls authorizedKeys teams conn key = [(sessionOf conn, T)].
Proof.
  intros Hexcl.
  destruct (exclusivelyOf_first _ _ _ _ Hexcl) as (t & Hfirst & <-).
  destruct Hexcl as (_ & _ & Hglobal). split.
  - by apply UserKeyFallback_team.
  - by apply bindCalls_team.
Qed.

Lemma UserKeyFallback_exclusive_team_witness :
  UserKeyFallback_closure recordAuthorizeTeam sample_authorizedKeys
    (reverse sample_teams) sample_conn keyA [("s0", "b")]
  = Returns accepted [("s0", "b"); ("s1", "a")]
  ∧ bindCalls sample_authorizedKeys (reverse sample_teams) sample_conn keyA
    = [("s1", "a")].
Proof.
  apply (UserKeyFallback_exclusive_team recordAuthorizeTeam "a").
  destruct exclusivelyOf_sample_keyA as (Hin & Hall & Hglobal).
  split; [|split; [|exact Hglobal]].
  - destruct Hin as (t & Ht & Hrest). exists t.
    split; [by apply elem_of_reverse | exact Hrest].
  - intros t Ht. apply Hall. by apply elem_of_reverse.
Defined.

(** X3: one call of the closure makes at most one call of
    [AuthorizeTeam], and only for the session of the connection and for a
    configured team whose key set holds the key, the key not being
    global: it never binds another session or a team that was not
    matched. *)
Theorem bindCalls_at_most_one_and_matched (authorizedKeys : list PublicKey)
    (teams : list TeamAuthKeys) (conn : ConnMetadata) (key : PublicKey) :
  length (bindCalls authorizedKeys teams conn key) ≤ 1
  ∧ ∀ call : string * string,
      call ∈ bindCalls authorizedKeys teams conn key →
      call.1 = sessionOf conn
      ∧ ¬ authorizes authorizedKeys key
      ∧ ∃ teamKeys : TeamAuthKeys,
          teamKeys ∈ teams ∧ Team teamKeys = call.2
          ∧ authorizes (AuthKeys teamKeys) key.
Proof.
  destruct (authorizes_dec authorizedKeys key) as [Hglobal | Hglobal].
  { rewrite bindCalls_global by done. split; [simpl; lia|].
    intros call Hin. by apply elem_of_nil in Hin. }
  destruct (teamAuthorizes_dec teams key) as [Hteam | Hteam].
  - destruct (teamAuthorizes_first teams key Hteam) as (t & Hin & Hfirst).
    rewrite (bindCalls_team _ _ _ _ t) by done. split; [simpl; lia|].
    intros call ->%list_elem_of_singleton. simpl.
    split; [done|]. split; [done|]. exists t. split; [done|]. split; [done|].
    by destruct Hfirst as (? & ? & _ & _ & ?).
  - rewrite bindCalls_no_team by done. split; [simpl; lia|].
    intros call Hin. by apply elem_of_nil in Hin.
Qed.

Lemma bindCalls_at_most_one_and_matched_witness :
  ("s1", "a") ∈ bindCalls sample_authorizedKeys sample_teams sample_conn keyAB
  ∧ ¬ authorizes sample_authorizedKeys keyAB
  ∧ ∃ teamKeys : TeamAuthKeys,
      teamKeys ∈ sample_teams ∧ Team teamKeys = "a"
      ∧ authorizes (AuthKeys teamKeys) keyAB.
Proof.
  assert (Hin : ("s1", "a")
                ∈ bindCalls sample_authorizedKeys sample_teams sample_conn
                    keyAB) by (apply list_elem_of_singleton; reflexivity).
  split; [exact Hin|].
  destruct (bindCalls_at_most_one_and_matched sample_authorizedKeys
              sample_teams sample_conn keyAB) as [_ Hcalls].
  exact (proj2 (Hcalls ("s1", "a") Hin)).
Defined.

(** X4: the closure changes the registry through [AuthorizeTeam] only.
    A property of the registry that every call of [AuthorizeTeam] for the
    session of the connection and a configured team keeps, whether the
    call returns or panics, holds after the closure as well. *)
Theorem UserKeyFallback_keeps_invariant {Store : Type}
    (AuthorizeTeam : string → string → M Store ())
    (authorizedKeys : list PublicKey) (teams : list TeamAuthKeys)
    (conn : ConnMetadata) (key : PublicKey) (P : Store → Prop) (s : Store) :
  (∀ (teamKeys : TeamAuthKeys) (s0 : Store),
     teamKeys ∈ teams → P s0 →
     match AuthorizeTeam (sessionOf conn) (Team teamKeys) s0 with
     | Returns _ s' => P s'
     | Panics _ s' => P s'
     end) →
  P s →
  match UserKeyFallback_closure AuthorizeTeam authorizedKeys teams conn key s
  with
  | Returns _ s' => P s'
  | Panics _ s' => P s'
  end.
Proof.
  intros Hkeeps HP.
  destruct (authorizes_dec authorizedKeys key) as [Hglobal | Hglobal].
  { by rewrite UserKeyFallback_global. }
  destruct (teamAuthorizes_dec teams key) as [Hteam | Hteam].
  - destruct (teamAuthorizes_first teams key Hteam) as (t & Hin & Hfirst).
    rewrite (UserKeyFallback_team _ _ _ _ _ t) by done.
    specialize (Hkeeps t s Hin HP). unfold mbind, M_bind.
    by destruct (AuthorizeTeam (sessionOf conn) (Team t) s).
  - by rewrite UserKeyFallback_unknown.
Qed.

Lemma UserKeyFallback_keeps_invariant_witness :
  match UserKeyFallback_closure sessionTeam_AuthorizeTeam
          sample_authorizedKeys sample_teams sample_conn keyA boundToB with
  | Returns _ s' => sessionTeam_Lookup s' "s2" = None
  | Panics _ s' => sessionTeam_Lookup s' "s2" = None
  end.
Proof.
  apply (UserKeyFallback_keeps_invariant sessionTeam_AuthorizeTeam
           sample_authorizedKeys sample_teams sample_conn keyA
           (λ s, sessionTeam_Lookup s "s2" = None)).
  - intros t s0 _ Hs0.
    destruct (sessionTeam_AuthorizeTeam (sessionOf sample_conn) (Team t) s0)
      as [[] s' | v s'] eqn:E.
    + apply AuthorizeTeam_returns in E as [_ Hother].
      rewrite Hother; [exact Hs0 | discriminate].
    + unfold sessionTeam_AuthorizeTeam in E.
      destruct (sessionTeams s0 !! sessionOf sample_conn); [|discriminate].
      destruct (decide (s = Team t)); [discriminate|].
      injection E as _ <-. exact Hs0.
  - reflexivity.
Defined.

(** X5: the closure returns an error exactly for the keys that are in
    no set.  A key of the global set or of a team's set is never turned
    down: the closure accepts it, or [AuthorizeTeam] panics. *)
Theorem UserKeyFallback_error_iff_unknown {Store : Type}
    (AuthorizeTeam : string → string → M Store ())
    (authorizedKeys : list PublicKey) (teams : list TeamAuthKeys)
    (conn : ConnMetadata) (key : PublicKey) (s : Store) :
  (∃ (perms : option Permissions) (err : error) (s' : Store),
     UserKeyFallback_closure AuthorizeTeam authorizedKeys teams conn key s
     = Returns (perms, Some err) s')
  ↔ ¬ authorizes authorizedKeys key ∧ ¬ teamAuthorizes teams key.
Proof.
  split.
  - intros (perms & err & s' & Hrun).
    destruct (authorizes_dec authorizedKeys key) as [Hglobal | Hglobal].
    { by rewrite UserKeyFallback_global in Hrun. }
    split; [done|]. intros Hteam.
    destruct (teamAuthorizes_first teams key Hteam) as (t & _ & Hfirst).
    rewrite (UserKeyFallback_team _ _ _ _ _ t) in Hrun by done.
    unfold mbind, M_bind in Hrun.
    by destruct (AuthorizeTeam (sessionOf conn) (Team t) s).
  - intros [Hglobal Hteam]. exists None, "unknown public key", s.
    by apply UserKeyFallback_unknown.
Qed.

Lemma UserKeyFallback_error_iff_unknown_witness :
  ¬ authorizes sample_authorizedKeys keyX ∧ ¬ teamAuthorizes sample_teams keyX.
Proof.
  apply (UserKeyFallback_error_iff_unknown sessionTeam_AuthorizeTeam
           sample_authorizedKeys sample_teams sample_conn keyX boundToB).
  exists None, "unknown public key", boundToB. reflexivity.
Defined.

Lemma rangeTeamAuthorizedKeys_same_sets {Store : Type}
    (AuthorizeTeam : string → string → M Store ())
    (teams teams' : list TeamAuthKeys) (conn : ConnMetadata)
    (key : PublicKey) (s : Store) :
  Forall2 (λ t t', Team t = Team t'
                   ∧ ∀ k : PublicKey, k ∈ AuthKeys t ↔ k ∈ AuthKeys t')
    teams teams' →
  rangeTeamAuthorizedKeys AuthorizeTeam teams conn key s
  = rangeTeamAuthorizedKeys AuthorizeTeam teams' conn key s.
Proof.
  induction 1 as [|t t' teams teams' [Hteam Hkeys] _ IH]; simpl; [done|].
  unfold mbind, M_bind.
  assert (Hsame : authorizes (AuthKeys t) key ↔ authorizes (AuthKeys t') key).
  { split; intros (k & Hin & Hk); exists k; (split; [by apply Hkeys | done]). }
  destruct (authorizes_dec (AuthKeys t) key) as [Hin | Hnot].
  - assert (Hin' : authorizes (AuthKeys t') key) by (by apply Hsame).
    rewrite (rangeAuthKeys_match _ _ (AuthKeys t)) by done.
    rewrite (rangeAuthKeys_match _ _ (AuthKeys t')) by done.
    rewrite Hteam. unfold mbind, M_bind.
    by destruct (AuthorizeTeam (sessionOf conn) (Team t') s).
  - assert (Hnot' : ¬ authorizes (AuthKeys t') key)
      by (intros Hin'; apply Hnot; by apply Hsame).
    rewrite (rangeAuthKeys_no_match _ _ (AuthKeys t)) by done.
    rewrite (rangeAuthKeys_no_match _ _ (AuthKeys t')) by done.
    exact IH.
Qed.

(** X6: every key list is used as a set.  Reordering the keys of the
    global list or of a team's list, or repeating some of them, changes
    nothing: two configurations with the same global keys and, team by
    team in the same order, the same team names and keys give the same
    closure. *)
Theorem UserKeyFallback_key_lists_as_sets {Store : Type}
    (AuthorizeTeam : string → string → M Store ())
    (authorizedKeys authorizedKeys' : list PublicKey)
    (teams teams' : list TeamAuthKeys) (conn : ConnMetadata)
    (key : PublicKey) (s : Store) :
  (∀ k : PublicKey, k ∈ authorizedKeys ↔ k ∈ authorizedKeys') →
  Forall2 (λ t t', Team t = Team t'
                   ∧ ∀ k : PublicKey, k ∈ AuthKeys t ↔ k ∈ AuthKeys t')
    teams teams' →
  UserKeyFallback_closure AuthorizeTeam authorizedKeys teams conn key s
  = UserKeyFallback_closure AuthorizeTeam authorizedKeys' teams' conn key s.
Proof.
  intros Hglobal Hteams.
  assert (Hsame : authorizes authorizedKeys key
                  ↔ authorizes authorizedKeys' key).
  { split; intros (k & Hin & Hk); exists k; (split; [by apply Hglobal | done]). }
  unfold UserKeyFallback_closure.
  destruct (authorizes_dec authorizedKeys key) as [Hin | Hnot].
  - assert (Hin' : authorizes authorizedKeys' key) by (by apply Hsame).
    by rewrite !rangeAuthorizedKeys_match.
  - assert (Hnot' : ¬ authorizes authorizedKeys' key)
      by (intros Hin'; apply Hnot; by apply Hsame).
    rewrite !rangeAuthorizedKeys_no_match by done.
    unfold mbind, M_bind.
    by rewrite (rangeTeamAuthorizedKeys_same_sets _ teams teams').
Qed.

Lemma UserKeyFallback_key_lists_as_sets_witness :
  UserKeyFallback_closure sessionTeam_AuthorizeTeam sample_authorizedKeys
    sample_teams sample_conn keyAB emptyRegistry
  = UserKeyFallback_closure sessionTeam_AuthorizeTeam
      [keyGA; keyG; keyGA]
      [ {| Team := "a"; AuthKeys := [keyGA; keyAB; keyA; keyAB] |};
        {| Team := "b"; AuthKeys := [keyAB; keyB] |} ]
      sample_conn keyAB emptyRegistry.
Proof.
  apply UserKeyFallback_key_lists_as_sets.
  - intros k. unfold sample_authorizedKeys.
    rewrite !elem_of_cons, !elem_of_nil. tauto.
  - unfold sample_teams.
    apply List.Forall2_cons; [|apply List.Forall2_cons; [|apply List.Forall2_nil]];
      (split; [reflexivity|]); intros k; simpl;
      rewrite !elem_of_cons, !elem_of_nil; tauto.
Defined.

(** ** Loading the team keys and building the runner *)

Lemma foldl_append_map {A B : Type} (f : A → B) (l : list A) (acc : list B) :
  foldl (λ acc x, acc ++ [f x]) acc l = acc ++ map f l.
Proof.
  revert acc. induction l as [|x l IH]; intros acc; simpl.
  - by rewrite app_nil_r.
  - by rewrite IH, <- app_assoc.
Qed.

Section load.

Context {rsaPrivateKey : Type}.
Variable rangeOrder :
  gmap string AuthorizedKeysFlag → list (string * AuthorizedKeysFlag).

Lemma loadTeamAuthorizedKeys_map (cmd : TSACommand rsaPrivateKey) :
  (loadTeamAuthorizedKeys rangeOrder cmd).1
  = map (λ entry, {| Team := entry.1; AuthKeys := Keys entry.2 |})
      (rangeOrder (TeamAuthorizedKeys cmd)).
Proof.
  unfold loadTeamAuthorizedKeys. simpl.
  exact (foldl_append_map
           (λ entry : string * AuthorizedKeysFlag,
              {| Team := entry.1; AuthKeys := Keys entry.2 |})
           (rangeOrder (TeamAuthorizedKeys cmd)) []).
Qed.

(** A team that the loaded slice holds is an entry of the map. *)
Lemma loadTeamAuthorizedKeys_elem (cmd : TSACommand rsaPrivateKey)
    (teamKeys : TeamAuthKeys) :
  rangeOrder (TeamAuthorizedKeys cmd)
  ≡ₚ map_to_list (TeamAuthorizedKeys cmd) →
  teamKeys ∈ (loadTeamAuthorizedKeys rangeOrder cmd).1
  ↔ ∃ keys : AuthorizedKeysFlag,
      TeamAuthorizedKeys cmd !! Team teamKeys = Some keys
      ∧ Keys keys = AuthKeys teamKeys.
Proof.
  intros Hperm. rewrite loadTeamAuthorizedKeys_map. split.
  - intros [[T keys] [-> Hin]]%list_elem_of_fmap. exists keys. simpl.
    split; [|done]. apply elem_of_map_to_list. by rewrite <- Hperm.
  - intros (keys & Hlookup & Hkeys). apply list_elem_of_fmap.
    exists (Team teamKeys, keys). split.
    + destruct teamKeys as [T ks]. simpl in *. by rewrite Hkeys.
    + rewrite Hperm. by apply elem_of_map_to_list.
Qed.

(** X7: when the range visits every entry of the map once,
    [loadTeamAuthorizedKeys] returns no error and a slice with one element
    for each team of the map and no other: as many elements as the map
    has teams, team names that are pairwise distinct, and for each team
    the keys of its entry. *)
Theorem loadTeamAuthorizedKeys_entries (cmd : TSACommand rsaPrivateKey) :
  rangeOrder (TeamAuthorizedKeys cmd)
  ≡ₚ map_to_list (TeamAuthorizedKeys cmd) →
  (loadTeamAuthorizedKeys rangeOrder cmd).2 = None
  ∧ length (loadTeamAuthorizedKeys rangeOrder cmd).1
    = size (TeamAuthorizedKeys cmd)
  ∧ NoDup (Team <$> (loadTeamAuthorizedKeys rangeOrder cmd).1)
  ∧ ∀ (T : string) (keys : list PublicKey),
      {| Team := T; AuthKeys := keys |}
      ∈ (loadTeamAuthorizedKeys rangeOrder cmd).1
      ↔ ∃ entry : AuthorizedKeysFlag,
          TeamAuthorizedKeys cmd !! T = Some entry ∧ Keys entry = keys.
Proof.
  intros Hperm. split; [done|]. split; [|split].
  - rewrite loadTeamAuthorizedKeys_map, length_map, Hperm.
    apply length_map_to_list.
  - rewrite loadTeamAuthorizedKeys_map.
    replace (Team <$> map (λ entry : string * AuthorizedKeysFlag,
                             {| Team := entry.1; AuthKeys := Keys entry.2 |})
                        (rangeOrder (TeamAuthorizedKeys cmd)))
      with ((rangeOrder (TeamAuthorizedKeys cmd)).*1).
    + rewrite Hperm. apply NoDup_fst_map_to_list.
    + by rewrite <- list_fmap_compose.
  - intros T keys.
    by rewrite (loadTeamAuthorizedKeys_elem cmd _ Hperm).
Qed.

End load.

Lemma loadTeamAuthorizedKeys_entries_witness :
  length (loadTeamAuthorizedKeys map_to_list sample_cmd_teams).1 = 2
  ∧ ({| Team := "b"; AuthKeys := [keyB; keyAB] |}
     ∈ (loadTeamAuthorizedKeys map_to_list sample_cmd_teams).1
     ↔ ∃ entry : AuthorizedKeysFlag,
         TeamAuthorizedKeys sample_cmd_teams !! "b" = Some entry
         ∧ Keys entry = [keyB; keyAB]).
Proof.
  destruct (loadTeamAuthorizedKeys_entries map_to_list sample_cmd_teams)
    as (_ & Hlen & _ & Hentries); [reflexivity|].
  split; [exact Hlen | apply Hentries].
Defined.

Section Runner_outcome.

Context {rsaPrivateKey Signer Config : Type}.
Variable AuthorizeTeam : string → string → M sessionTeam ().
Variable CheckCert : string → PublicKey → option error.
Variable DefaultSSHConfig : Config.
Variable NewSignerFromKey :
  PrivateKeyFlag rsaPrivateKey → Completion (Signer + error).
Variable rangeOrder :
  gmap string AuthorizedKeysFlag → list (string * AuthorizedKeysFlag).

(** X8: [Runner] ends in one of three ways: it returns a runner and no
    error, it returns an error and no runner, or it panics.  It returns a
    runner exactly when the host key gives a signer and the session
    signing key is there; it panics exactly when [ssh.NewSignerFromKey]
    does, as on a nil host key; the host key is looked at first, so that
    its error is the one reported when both keys are bad; and loading the
    team keys is never the reason of an error. *)
Theorem Runner_outcome (cmd : TSACommand rsaPrivateKey)
    (args : list string) (webConfig : WebConfig) :
  ((∃ runner : serverRunner rsaPrivateKey Signer Config,
      (Runner AuthorizeTeam CheckCert DefaultSSHConfig NewSignerFromKey
       rangeOrder cmd args webConfig).2 = Completes (Some runner, None))
   ∨ (∃ err : error, (Runner AuthorizeTeam CheckCert DefaultSSHConfig NewSignerFromKey
       rangeOrder cmd args webConfig).2 = Completes (None, Some err))
   ∨ (∃ reason : string, (Runner AuthorizeTeam CheckCert DefaultSSHConfig NewSignerFromKey
       rangeOrder cmd args webConfig).2 = RuntimePanic reason))
  ∧ ((∃ runner : serverRunner rsaPrivateKey Signer Config,
        (Runner AuthorizeTeam CheckCert DefaultSSHConfig NewSignerFromKey
       rangeOrder cmd args webConfig).2 = Completes (Some runner, None))
     ↔ (∃ signer : Signer,
          ssh_NewSignerFromKey NewSignerFromKey (HostKey cmd)
          = Completes (inl signer))
       ∧ is_Some (SessionSigningKey cmd))
  ∧ (∀ reason : string,
       (Runner AuthorizeTeam CheckCert DefaultSSHConfig NewSignerFromKey
       rangeOrder cmd args webConfig).2 = RuntimePanic reason
       ↔ ssh_NewSignerFromKey NewSignerFromKey (HostKey cmd)
         = RuntimePanic reason)
  ∧ (HostKey cmd = None → (Runner AuthorizeTeam CheckCert DefaultSSHConfig NewSignerFromKey
       rangeOrder cmd args webConfig).2 = RuntimePanic nilDereference)
  ∧ (∀ e : error,
       ssh_NewSignerFromKey NewSignerFromKey (HostKey cmd)
       = Completes (inr e) →
       (Runner AuthorizeTeam CheckCert DefaultSSHConfig NewSignerFromKey
       rangeOrder cmd args webConfig).2
       = Completes
           (None,
            Some ("failed to configure SSH server: "
                  +:+ "failed to create signer from host key: " +:+ e))).
Proof.
  assert (Hnil : HostKey cmd = None →
                 ssh_NewSignerFromKey NewSignerFromKey (HostKey cmd)
                 = RuntimePanic nilDereference) by (by intros ->).
  revert Hnil. unfold Runner, configureSSHServer. simpl.
  destruct (ssh_NewSignerFromKey NewSignerFromKey (HostKey cmd))
    as [[signer | e] | reason]; simpl; intros Hnil.
  - destruct (SessionSigningKey cmd) as [key|]; simpl.
    + split; [left; by eexists|].
      split; [split; [intros _; split; by eexists | intros _; by eexists]|].
      split; [by intros reason; split|]. split; [|done].
      intros Hnone. by specialize (Hnil Hnone).
    + split; [right; left; by eexists|].
      split; [split; [by intros [runner Hrun] | by intros [_ [key Hkey]]]|].
      split; [by intros reason; split|]. split; [|done].
      intros Hnone. by specialize (Hnil Hnone).
  - split; [right; left; by eexists|].
    split; [split; [by intros [runner Hrun] | by intros [[signer Hsigner] _]]|].
    split; [by intros reason'; split|]. split; [|by intros e' [= <-]].
    intros Hnone. by specialize (Hnil Hnone).
  - split; [right; right; by eexists|].
    split; [split; [by intros [runner Hrun] | by intros [[signer Hsigner] _]]|].
    split; [intros reason'; split; by intros [= ->]|]. split; [|done].
    intros Hnone. specialize (Hnil Hnone). by injection Hnil as ->.
Qed.

(** X9: the warning is the only call [Runner] can make on the logger,
    and it is left out as soon as the global list has a key or the map
    has a team, be it a team whose key list is empty. *)
Theorem Runner_quiet_iff_configured (cmd : TSACommand rsaPrivateKey)
    (args : list string) (webConfig : WebConfig) :
  ((Runner AuthorizeTeam CheckCert DefaultSSHConfig NewSignerFromKey
      rangeOrder cmd args webConfig).1 = []
   ↔ Keys (AuthorizedKeys cmd) ≠ [] ∨ TeamAuthorizedKeys cmd ≠ ∅)
  ∧ ((Runner AuthorizeTeam CheckCert DefaultSSHConfig NewSignerFromKey
        rangeOrder cmd args webConfig).1 = []
     ∨ (Runner AuthorizeTeam CheckCert DefaultSSHConfig NewSignerFromKey
          rangeOrder cmd args webConfig).1
       = [Info (constructLogger cmd webConfig)
            "starting-tsa-without-authorized-keys"]).
Proof.
  rewrite Runner_log.
  destruct (decide (length (Keys (AuthorizedKeys cmd))
                    + size (TeamAuthorizedKeys cmd) = 0)) as [Hzero | Hsome].
  - split; [|by right]. split; [done|]. intros [Hkeys | Hteams]; exfalso.
    + apply Hkeys, length_zero_iff_nil. lia.
    + apply Hteams, map_size_empty_iff. lia.
  - split; [|by left]. split; [|done]. intros _.
    destruct (Keys (AuthorizedKeys cmd)) as [|k keys]; [|by left].
    right. apply map_size_non_empty_iff. simpl in Hsome. lia.
Qed.

(** The configuration of the server of a runner: its only host key is the
    signer of the command's host key, and its callback is [Authenticate]
    on the checker built from the global keys and the loaded team keys. *)
Lemma Runner_config (cmd : TSACommand rsaPrivateKey) (args : list string)
    (webConfig : WebConfig) (signer : Signer)
    (key : PrivateKeyFlag rsaPrivateKey) :
  ssh_NewSignerFromKey NewSignerFromKey (HostKey cmd)
  = Completes (inl signer) →
  SessionSigningKey cmd = Some key →
  ∃ (runner : serverRunner rsaPrivateKey Signer Config)
    (cfg : ServerConfig sessionTeam Signer Config),
    (Runner AuthorizeTeam CheckCert DefaultSSHConfig NewSignerFromKey
       rangeOrder cmd args webConfig).2 = Completes (Some runner, None)
    ∧ config (runner_server runner) = Some cfg
    ∧ hostKeys cfg = [signer]
    ∧ PublicKeyCallback cfg
      = Some (λ conn k,
                Authenticate CheckCert
                  (certChecker AuthorizeTeam (Keys (AuthorizedKeys cmd))
                     (loadTeamAuthorizedKeys rangeOrder cmd).1) conn k).
Proof.
  intros Hsigner Hkey. unfold Runner, configureSSHServer. simpl.
  rewrite Hsigner, Hkey. simpl. by do 2 eexists.
Qed.

End Runner_outcome.

Lemma Runner_outcome_witness :
  (sample_Runner sample_cmd_unsigned).2
  = Completes (None, Some "missing session signing key")
  ∧ (sample_Runner sample_cmd_without_keys).2 = RuntimePanic nilDereference
  ∧ ∃ runner : serverRunner () () (),
      (sample_Runner sample_cmd_teams).2 = Completes (Some runner, None).
Proof.
  split; [reflexivity|]. split.
  - destruct (Runner_outcome sessionTeam_AuthorizeTeam sample_CheckCert ()
                sample_NewSignerFromKey map_to_list sample_cmd_without_keys
                [] sample_webConfig) as (_ & _ & _ & Hnil & _).
    exact (Hnil eq_refl).
  - destruct (Runner_outcome sessionTeam_AuthorizeTeam sample_CheckCert ()
                sample_NewSignerFromKey map_to_list sample_cmd_teams []
                sample_webConfig) as (_ & Hiff & _).
    apply Hiff. split; [by exists () | by eexists].
Defined.

Lemma Runner_quiet_iff_configured_witness :
  (sample_Runner sample_cmd_keyless_team).1 = []
  ∧ Keys (AuthorizedKeys sample_cmd_keyless_team) = [].
Proof.
  split; [|reflexivity].
  destruct (Runner_quiet_iff_configured sessionTeam_AuthorizeTeam
              sample_CheckCert () sample_NewSignerFromKey map_to_list
              sample_cmd_keyless_team [] sample_webConfig) as [Hiff _].
  apply Hiff. right. apply insert_non_empty.
Defined.

(** ** The callback of the runner, end to end *)

Lemma firstMatch_loaded (entries before after : list (string * AuthorizedKeysFlag))
    (T : string) (entry : AuthorizedKeysFlag) (key : PublicKey) :
  entries = before ++ (T, entry) :: after →
  Forall (λ e, ¬ authorizes (Keys e.2) key) before →
  authorizes (Keys entry) key →
  firstMatch
    (map (λ e, {| Team := e.1; AuthKeys := Keys e.2 |}) entries) key
    {| Team := T; AuthKeys := Keys entry |}.
Proof.
  intros -> Hbefore Hkey.
  exists (map (λ e, {| Team := e.1; AuthKeys := Keys e.2 |}) before),
         (map (λ e, {| Team := e.1; AuthKeys := Keys e.2 |}) after).
  split; [by rewrite map_app|]. split; [|done].
  apply Forall_forall. intros t [e [-> He]]%list_elem_of_fmap. simpl.
  by apply (proj1 (Forall_forall _ _) Hbefore).
Qed.

Section Runner_callback.

Context {rsaPrivateKey Signer Config : Type}.
Variable AuthorizeTeam : string → string → M sessionTeam ().
Variable CheckCert : string → PublicKey → option error.
Variable DefaultSSHConfig : Config.
Variable NewSignerFromKey :
  PrivateKeyFlag rsaPrivateKey → Completion (Signer + error).
Variable rangeOrder :
  gmap string AuthorizedKeysFlag → list (string * AuthorizedKeysFlag).

(** X10: the server of a runner accepts every plain key of the global
    list of the command, on every connection, and leaves the registry as
    it is. *)
Theorem Runner_accepts_global_key (cmd : TSACommand rsaPrivateKey)
    (args : list string) (webConfig : WebConfig) (signer : Signer)
    (key : PrivateKeyFlag rsaPrivateKey) (wire : list byte) :
  ssh_NewSignerFromKey NewSignerFromKey (HostKey cmd)
  = Completes (inl signer) →
  SessionSigningKey cmd = Some key →
  authorizes (Keys (AuthorizedKeys cmd)) (PlainKey wire) →
  ∃ (runner : serverRunner rsaPrivateKey Signer Config)
    (cfg : ServerConfig sessionTeam Signer Config)
    (callback : ConnMetadata → PublicKey → M sessionTeam Verdict),
    (Runner AuthorizeTeam CheckCert DefaultSSHConfig NewSignerFromKey
       rangeOrder cmd args webConfig).2 = Completes (Some runner, None)
    ∧ config (runner_server runner) = Some cfg
    ∧ PublicKeyCallback cfg = Some callback
    ∧ ∀ (conn : ConnMetadata) (s : sessionTeam),
        callback conn (PlainKey wire) s = Returns accepted s.
Proof.
  intros Hsigner Hkey Hglobal.
  destruct (Runner_config AuthorizeTeam CheckCert DefaultSSHConfig
              NewSignerFromKey rangeOrder cmd args webConfig signer key
              Hsigner Hkey) as (runner & cfg & Hrun & Hcfg & _ & Hcallback).
  exists runner, cfg. eexists. split; [done|]. split; [done|].
  split; [exact Hcallback|]. intros conn s. simpl.
  by apply UserKeyFallback_global.
Qed.

(** X11: for a plain key that is not global, the server of a runner
    binds the session to the first team, in the order in which the map
    of team keys was ranged over, whose key list holds the key: the
    callback is one [AuthorizeTeam] call for that team, then the return
    of [nil, nil]. *)
Theorem Runner_binds_first_team_in_range_order
    (cmd : TSACommand rsaPrivateKey) (args : list string)
    (webConfig : WebConfig) (signer : Signer)
    (key : PrivateKeyFlag rsaPrivateKey) (wire : list byte)
    (before after : list (string * AuthorizedKeysFlag)) (T : string)
    (entry : AuthorizedKeysFlag) :
  ssh_NewSignerFromKey NewSignerFromKey (HostKey cmd)
  = Completes (inl signer) →
  SessionSigningKey cmd = Some key →
  ¬ authorizes (Keys (AuthorizedKeys cmd)) (PlainKey wire) →
  rangeOrder (TeamAuthorizedKeys cmd) = before ++ (T, entry) :: after →
  Forall (λ e, ¬ authorizes (Keys e.2) (PlainKey wire)) before →
  authorizes (Keys entry) (PlainKey wire) →
  ∃ (runner : serverRunner rsaPrivateKey Signer Config)
    (cfg : ServerConfig sessionTeam Signer Config)
    (callback : ConnMetadata → PublicKey → M sessionTeam Verdict),
    (Runner AuthorizeTeam CheckCert DefaultSSHConfig NewSignerFromKey
       rangeOrder cmd args webConfig).2 = Completes (Some runner, None)
    ∧ config (runner_server runner) = Some cfg
    ∧ PublicKeyCallback cfg = Some callback
    ∧ ∀ (conn : ConnMetadata) (s : sessionTeam),
        callback conn (PlainKey wire) s
        = (AuthorizeTeam (sessionOf conn) T;; mret accepted) s.
Proof.
  intros Hsigner Hkey Hglobal Horder Hbefore Hentry.
  destruct (Runner_config AuthorizeTeam CheckCert DefaultSSHConfig
              NewSignerFromKey rangeOrder cmd args webConfig signer key
              Hsigner Hkey) as (runner & cfg & Hrun & Hcfg & _ & Hcallback).
  exists runner, cfg. eexists. split; [done|]. split; [done|].
  split; [exact Hcallback|]. intros conn s.
  assert (Hfirst : firstMatch (loadTeamAuthorizedKeys rangeOrder cmd).1
                     (PlainKey wire) {| Team := T; AuthKeys := Keys entry |}).
  { rewrite loadTeamAuthorizedKeys_map.
    by apply (firstMatch_loaded _ before after). }
  exact (UserKeyFallback_team AuthorizeTeam _ _ conn _ _ s Hglobal Hfirst).
Qed.

(** X12: when one team only of the map holds a plain key that is not
    global, the server of a runner binds the session to that team,
    whatever the order in which the map was ranged over. *)
Theorem Runner_binds_unique_team (cmd : TSACommand rsaPrivateKey)
    (args : list string) (webConfig : WebConfig) (signer : Signer)
    (key : PrivateKeyFlag rsaPrivateKey) (wire : list byte) (T : string)
    (entry : AuthorizedKeysFlag) :
  ssh_NewSignerFromKey NewSignerFromKey (HostKey cmd)
  = Completes (inl signer) →
  SessionSigningKey cmd = Some key →
  rangeOrder (TeamAuthorizedKeys cmd)
  ≡ₚ map_to_list (TeamAuthorizedKeys cmd) →
  ¬ authorizes (Keys (AuthorizedKeys cmd)) (PlainKey wire) →
  TeamAuthorizedKeys cmd !! T = Some entry →
  authorizes (Keys entry) (PlainKey wire) →
  (∀ (T' : string) (entry' : AuthorizedKeysFlag),
     TeamAuthorizedKeys cmd !! T' = Some entry' →
     authorizes (Keys entry') (PlainKey wire) → T' = T) →
  ∃ (runner : serverRunner rsaPrivateKey Signer Config)
    (cfg : ServerConfig sessionTeam Signer Config)
    (callback : ConnMetadata → PublicKey → M sessionTeam Verdict),
    (Runner AuthorizeTeam CheckCert DefaultSSHConfig NewSignerFromKey
       rangeOrder cmd args webConfig).2 = Completes (Some runner, None)
    ∧ config (runner_server runner) = Some cfg
    ∧ PublicKeyCallback cfg = Some callback
    ∧ ∀ (conn : ConnMetadata) (s : sessionTeam),
        callback conn (PlainKey wire) s
        = (AuthorizeTeam (sessionOf conn) T;; mret accepted) s.
Proof.
  intros Hsigner Hkey Hperm Hglobal Hlookup Hentry Hunique.
  destruct (Runner_config AuthorizeTeam CheckCert DefaultSSHConfig
              NewSignerFromKey rangeOrder cmd args webConfig signer key
              Hsigner Hkey) as (runner & cfg & Hrun & Hcfg & _ & Hcallback).
  exists runner, cfg. eexists. split; [done|]. split; [done|].
  split; [exact Hcallback|]. intros conn s.
  assert (Hexcl : exclusivelyOf T (Keys (AuthorizedKeys cmd))
                    (loadTeamAuthorizedKeys rangeOrder cmd).1 (PlainKey wire)).
  { split; [|split; [|done]].
    - exists {| Team := T; AuthKeys := Keys entry |}.
      split; [|done]. apply loadTeamAuthorizedKeys_elem; [done|].
      by exists entry.
    - intros t [entry' [Hin' Hkeys']]%loadTeamAuthorizedKeys_elem Ht; [|done].
      apply (Hunique _ entry'); [done | by rewrite Hkeys']. }
  destruct (exclusivelyOf_first _ _ _ _ Hexcl) as (t & Hfirst & <-).
  exact (UserKeyFallback_team AuthorizeTeam _ _ conn _ _ s Hglobal Hfirst).
Qed.

(** X13: the server of a runner turns down, with the error "unknown
    public key" and the registry as it is, every plain key that neither
    the global list nor the key list of any team of the map holds. *)
Theorem Runner_rejects_unknown_key (cmd : TSACommand rsaPrivateKey)
    (args : list string) (webConfig : WebConfig) (signer : Signer)
    (key : PrivateKeyFlag rsaPrivateKey) (wire : list byte) :
  ssh_NewSignerFromKey NewSignerFromKey (HostKey cmd)
  = Completes (inl signer) →
  SessionSigningKey cmd = Some key →
  rangeOrder (TeamAuthorizedKeys cmd)
  ≡ₚ map_to_list (TeamAuthorizedKeys cmd) →
  ¬ authorizes (Keys (AuthorizedKeys cmd)) (PlainKey wire) →
  (∀ (T : string) (entry : AuthorizedKeysFlag),
     TeamAuthorizedKeys cmd !! T = Some entry →
     ¬ authorizes (Keys entry) (PlainKey wire)) →
  ∃ (runner : serverRunner rsaPrivateKey Signer Config)
    (cfg : ServerConfig sessionTeam Signer Config)
    (callback : ConnMetadata → PublicKey → M sessionTeam Verdict),
    (Runner AuthorizeTeam CheckCert DefaultSSHConfig NewSignerFromKey
       rangeOrder cmd args webConfig).2 = Completes (Some runner, None)
    ∧ config (runner_server runner) = Some cfg
    ∧ PublicKeyCallback cfg = Some callback
    ∧ ∀ (conn : ConnMetadata) (s : sessionTeam),
        callback conn (PlainKey wire) s
        = Returns (None, Some "unknown public key") s.
Proof.
  intros Hsigner Hkey Hperm Hglobal Hteams.
  destruct (Runner_config AuthorizeTeam CheckCert DefaultSSHConfig
              NewSignerFromKey rangeOrder cmd args webConfig signer key
              Hsigner Hkey) as (runner & cfg & Hrun & Hcfg & _ & Hcallback).
  exists runner, cfg. eexists. split; [done|]. split; [done|].
  split; [exact Hcallback|]. intros conn s.
  assert (Hnone : ¬ teamAuthorizes (loadTeamAuthorizedKeys rangeOrder cmd).1
                      (PlainKey wire)).
  { intros (t & [entry [Hin Hkeys]]%loadTeamAuthorizedKeys_elem & Ht); [|done].
    apply (Hteams _ entry Hin). by rewrite Hkeys. }
  exact (UserKeyFallback_unknown AuthorizeTeam _ _ conn _ s Hglobal Hnone).
Qed.

End Runner_callback.

Lemma sample_cmd_teams_lookup (T : string) (entry : AuthorizedKeysFlag) :
  TeamAuthorizedKeys sample_cmd_teams !! T = Some entry →
  (T = "a" ∧ entry = {| Keys := [keyA; keyAB] |})
  ∨ (T = "b" ∧ entry = {| Keys := [keyB; keyAB] |}).
Proof.
  simpl. intros Hlookup.
  apply lookup_insert_Some in Hlookup as [[<- <-] | [_ Hlookup]]; [by left|].
  apply lookup_insert_Some in Hlookup as [[<- <-] | [_ Hlookup]]; [by right|].
  by rewrite lookup_empty in Hlookup.
Qed.

Lemma Runner_accepts_global_key_witness :
  ∃ (runner : serverRunner () () ())
    (cfg : ServerConfig sessionTeam () ())
    (callback : ConnMetadata → PublicKey → M sessionTeam Verdict),
    (sample_Runner sample_cmd_teams).2 = Completes (Some runner, None)
    ∧ config (runner_server runner) = Some cfg
    ∧ PublicKeyCallback cfg = Some callback
    ∧ ∀ (conn : ConnMetadata) (s : sessionTeam),
        callback conn keyG s = Returns accepted s.
Proof.
  apply (Runner_accepts_global_key sessionTeam_AuthorizeTeam sample_CheckCert
           () sample_NewSignerFromKey map_to_list sample_cmd_teams []
           sample_webConfig () {| PrivateKey := () |} [x01] eq_refl eq_refl).
  apply authorizes_decide. reflexivity.
Defined.

Lemma Runner_binds_first_team_in_range_order_witness :
  ∃ (runner : serverRunner () () ())
    (cfg : ServerConfig sessionTeam () ())
    (callback : ConnMetadata → PublicKey → M sessionTeam Verdict),
    Runner sessionTeam_AuthorizeTeam sample_CheckCert ()
      sample_NewSignerFromKey
      (λ _, [("b", {| Keys := [keyB; keyAB] |});
             ("a", {| Keys := [keyA; keyAB] |})])
      sample_cmd_teams [] sample_webConfig
    = ([], Completes (Some runner, None))
    ∧ config (runner_server runner) = Some cfg
    ∧ PublicKeyCallback cfg = Some callback
    ∧ callback sample_conn keyAB emptyRegistry = Returns accepted boundToB.
Proof.
  destruct (Runner_binds_first_team_in_range_order sessionTeam_AuthorizeTeam
              sample_CheckCert () sample_NewSignerFromKey
              (λ _, [("b", {| Keys := [keyB; keyAB] |});
                     ("a", {| Keys := [keyA; keyAB] |})])
              sample_cmd_teams [] sample_webConfig () {| PrivateKey := () |}
              [x0a; x0b] [] [("a", {| Keys := [keyA; keyAB] |})] "b"
              {| Keys := [keyB; keyAB] |} eq_refl eq_refl)
    as (runner & cfg & callback & Hrun & Hcfg & Hcallback & Hbinds).
  - apply not_authorizes_decide. reflexivity.
  - reflexivity.
  - apply Forall_nil_2.
  - apply authorizes_decide. reflexivity.
  - exists runner, cfg, callback.
    split; [|split; [exact Hcfg | split; [exact Hcallback|]]].
    + simpl in Hrun. rewrite <- Hrun. reflexivity.
    + exact (eq_trans (Hbinds sample_conn emptyRegistry) eq_refl).
Defined.

Lemma Runner_binds_unique_team_witness :
  ∃ (runner : serverRunner () () ())
    (cfg : ServerConfig sessionTeam () ())
    (callback : ConnMetadata → PublicKey → M sessionTeam Verdict),
    (sample_Runner sample_cmd_teams).2 = Completes (Some runner, None)
    ∧ config (runner_server runner) = Some cfg
    ∧ PublicKeyCallback cfg = Some callback
    ∧ ∀ (conn : ConnMetadata) (s : sessionTeam),
        callback conn keyA s
        = (sessionTeam_AuthorizeTeam (sessionOf conn) "a";; mret accepted) s.
Proof.
  apply (Runner_binds_unique_team sessionTeam_AuthorizeTeam sample_CheckCert
           () sample_NewSignerFromKey map_to_list sample_cmd_teams []
           sample_webConfig () {| PrivateKey := () |} [x0a] "a"
           {| Keys := [keyA; keyAB] |} eq_refl eq_refl).
  - reflexivity.
  - apply not_authorizes_decide. reflexivity.
  - reflexivity.
  - apply authorizes_decide. reflexivity.
  - intros T' entry' [[-> _] | [_ ->]]%sample_cmd_teams_lookup Hkey; [done|].
    by apply authorizes_decide in Hkey.
Defined.

Lemma Runner_rejects_unknown_key_witness :
  ∃ (runner : serverRunner () () ())
    (cfg : ServerConfig sessionTeam () ())
    (callback : ConnMetadata → PublicKey → M sessionTeam Verdict),
    (sample_Runner sample_cmd_teams).2 = Completes (Some runner, None)
    ∧ config (runner_server runner) = Some cfg
    ∧ PublicKeyCallback cfg = Some callback
    ∧ ∀ (conn : ConnMetadata) (s : sessionTeam),
        callback conn keyX s = Returns (None, Some "unknown public key") s.
Proof.
  apply (Runner_rejects_unknown_key sessionTeam_AuthorizeTeam sample_CheckCert
           () sample_NewSignerFromKey map_to_list sample_cmd_teams []
           sample_webConfig () {| PrivateKey := () |} [xff] eq_refl eq_refl).
  - reflexivity.
  - apply not_authorizes_decide. reflexivity.
  - intros T entry [[_ ->] | [_ ->]]%sample_cmd_teams_lookup;
      apply not_authorizes_decide; reflexivity.
Defined.

(** ** Configurations that accept nobody, and certificates *)

Section nobody.

Context {rsaPrivateKey Signer Config : Type}.
Variable AuthorizeTeam : string → string → M sessionTeam ().
Variable CheckCert : string → PublicKey → option error.
Variable DefaultSSHConfig : Config.
Variable NewSignerFromKey :
  PrivateKeyFlag rsaPrivateKey → Completion (Signer + error).
Variable rangeOrder :
  gmap string AuthorizedKeysFlag → list (string * AuthorizedKeysFlag).

(** X14: when the global list is empty and every team of the map has an
    empty key list, the server of a runner turns down every key, plain or
    certificate, with the registry as it is; and when the map has such a
    team, [Runner] makes no call on the logger: nobody can be accepted,
    and no warning says so. *)
Theorem Runner_without_any_key_accepts_nobody
    (cmd : TSACommand rsaPrivateKey) (args : list string)
    (webConfig : WebConfig) (signer : Signer)
    (key : PrivateKeyFlag rsaPrivateKey) :
  ssh_NewSignerFromKey NewSignerFromKey (HostKey cmd)
  = Completes (inl signer) →
  SessionSigningKey cmd = Some key →
  rangeOrder (TeamAuthorizedKeys cmd)
  ≡ₚ map_to_list (TeamAuthorizedKeys cmd) →
  Keys (AuthorizedKeys cmd) = [] →
  (∀ (T : string) (entry : AuthorizedKeysFlag),
     TeamAuthorizedKeys cmd !! T = Some entry → Keys entry = []) →
  ∃ (runner : serverRunner rsaPrivateKey Signer Config)
    (cfg : ServerConfig sessionTeam Signer Config)
    (callback : ConnMetadata → PublicKey → M sessionTeam Verdict),
    (Runner AuthorizeTeam CheckCert DefaultSSHConfig NewSignerFromKey
       rangeOrder cmd args webConfig).2 = Completes (Some runner, None)
    ∧ config (runner_server runner) = Some cfg
    ∧ PublicKeyCallback cfg = Some callback
    ∧ (∀ (conn : ConnMetadata) (candidate : PublicKey) (s : sessionTeam),
         ∃ err : error,
           callback conn candidate s = Returns (None, Some err) s)
    ∧ (TeamAuthorizedKeys cmd ≠ ∅ →
       (Runner AuthorizeTeam CheckCert DefaultSSHConfig NewSignerFromKey
          rangeOrder cmd args webConfig).1 = []).
Proof.
  intros Hsigner Hkey Hperm Hglobal Hteams.
  destruct (Runner_config AuthorizeTeam CheckCert DefaultSSHConfig
              NewSignerFromKey rangeOrder cmd args webConfig signer key
              Hsigner Hkey) as (runner & cfg & Hrun & Hcfg & _ & Hcallback).
  exists runner, cfg. eexists. split; [done|]. split; [done|].
  split; [exact Hcallback|]. split; cycle 1.
  { intros Hsome. rewrite Runner_log. apply decide_False.
    apply map_size_non_empty_iff in Hsome. lia. }
  intros conn [wire | wire certType signatureKey perms] s.
  - exists "unknown public key".
    assert (Hnot : ¬ authorizes (Keys (AuthorizedKeys cmd)) (PlainKey wire)).
    { rewrite Hglobal. apply authorizes_nil. }
    assert (Hnone : ¬ teamAuthorizes (loadTeamAuthorizedKeys rangeOrder cmd).1
                        (PlainKey wire)).
    { intros (t & [entry [Hin Hkeys]]%loadTeamAuthorizedKeys_elem & Ht);
        [|done].
      rewrite <- Hkeys, (Hteams _ entry Hin) in Ht.
      by apply authorizes_nil in Ht. }
    exact (UserKeyFallback_unknown AuthorizeTeam _ _ conn _ s Hnot Hnone).
  - apply Authenticate_certificate.
Qed.

End nobody.

Lemma Runner_without_any_key_accepts_nobody_witness :
  (sample_Runner sample_cmd_keyless_team).1 = []
  ∧ ∃ (runner : serverRunner () () ())
      (cfg : ServerConfig sessionTeam () ())
      (callback : ConnMetadata → PublicKey → M sessionTeam Verdict),
      (sample_Runner sample_cmd_keyless_team).2 = Completes (Some runner, None)
      ∧ config (runner_server runner) = Some cfg
      ∧ PublicKeyCallback cfg = Some callback
      ∧ (∀ (conn : ConnMetadata) (candidate : PublicKey) (s : sessionTeam),
           ∃ err : error,
             callback conn candidate s = Returns (None, Some err) s)
      ∧ (TeamAuthorizedKeys sample_cmd_keyless_team ≠ ∅ →
         (sample_Runner sample_cmd_keyless_team).1 = []).
Proof.
  split; [reflexivity|].
  apply (Runner_without_any_key_accepts_nobody sessionTeam_AuthorizeTeam
           sample_CheckCert () sample_NewSignerFromKey map_to_list
           sample_cmd_keyless_team [] sample_webConfig ()
           {| PrivateKey := () |} eq_refl eq_refl).
  - reflexivity.
  - reflexivity.
  - simpl. intros T entry Hlookup.
    apply lookup_insert_Some in Hlookup as [[_ <-] | [_ Hlookup]]; [done|].
    by rewrite lookup_empty in Hlookup.
Defined.

(** X15: the callback of a configured server turns down every
    certificate, for its type when it is not a user certificate and for
    its authority otherwise.  It does so whatever the key lists hold, the
    certificate itself included, and whatever [CheckCert] would say; the
    registry is left as it is. *)
Theorem callback_rejects_certificates {Store Signer Config HostKeyT : Type}
    (AuthorizeTeam : string → string → M Store ())
    (authorizedKeys : list PublicKey) (teams : list TeamAuthKeys)
    (CheckCert : string → PublicKey → option error)
    (DefaultSSHConfig : Config)
    (NewSignerFromKey : HostKeyT → Completion (Signer + error))
    (HostKey : option HostKeyT) (cfg : ServerConfig Store Signer Config)
    (callback : ConnMetadata → PublicKey → M Store Verdict) :
  configureSSHServer AuthorizeTeam authorizedKeys teams CheckCert
    DefaultSSHConfig NewSignerFromKey HostKey = Completes (Some cfg, None) →
  PublicKeyCallback cfg = Some callback →
  ∀ (conn : ConnMetadata) (wire : list byte) (certType : Z)
    (signatureKey : PublicKey) (perms : Permissions) (s : Store),
    callback conn (Certificate wire certType signatureKey perms) s
    = Returns
        (None,
         Some (if (certType =? UserCert)%Z
               then "ssh: certificate signed by unrecognized authority"
               else "ssh: cert has type " +:+ pretty certType))
        s.
Proof.
  intros Hconfig Hcallback conn wire certType signatureKey perms s.
  rewrite (configureSSHServer_callback _ _ _ _ _ _ _ _ _ Hconfig Hcallback).
  simpl. by destruct (certType =? UserCert)%Z.
Qed.

Lemma callback_rejects_certificates_witness :
  ∃ (cfg : ServerConfig sessionTeam () ())
    (callback : ConnMetadata → PublicKey → M sessionTeam Verdict),
    configureSSHServer sessionTeam_AuthorizeTeam
      [Certificate [x0c] 1 keyG {| CriticalOptions := ∅; Extensions := ∅ |}]
      sample_teams sample_CheckCert () sample_NewSignerFromKey
      (Some {| PrivateKey := () |})
    = Completes (Some cfg, None)
    ∧ PublicKeyCallback cfg = Some callback
    ∧ callback sample_conn
        (Certificate [x0c] 1 keyG {| CriticalOptions := ∅; Extensions := ∅ |})
        emptyRegistry
      = Returns
          (None, Some "ssh: certificate signed by unrecognized authority")
          emptyRegistry.
Proof.
  do 2 eexists. split; [reflexivity|]. split; [reflexivity|].
  exact (callback_rejects_certificates sessionTeam_AuthorizeTeam
           [Certificate [x0c] 1 keyG
              {| CriticalOptions := ∅; Extensions := ∅ |}]
           sample_teams sample_CheckCert () sample_NewSignerFromKey
           (Some {| PrivateKey := () |}) _ _ eq_refl eq_refl
           sample_conn [x0c] 1 keyG
           {| CriticalOptions := ∅; Extensions := ∅ |} emptyRegistry).
Defined.

(** ** Addresses *)

Lemma no_colon_String (c : ascii) (s : string) :
  c ≠ ":"%char →
  (∀ a b : string, s ≠ a +:+ String ":" b) →
  ∀ a b : string, String c s ≠ a +:+ String ":" b.
Proof.
  intros Hc Hs [|c' a] b; simpl; intros [= Hhead Htail].
  - done.
  - by apply (Hs a b).
Qed.

Lemma pretty_N_char_no_colon (x : N) : pretty_N_char x ≠ ":"%char.
Proof. unfold pretty_N_char. by repeat case_match. Qed.

Lemma pretty_N_go_no_colon (x : N) (s : string) :
  (∀ a b : string, s ≠ a +:+ String ":" b) →
  ∀ a b : string, pretty_N_go x s ≠ a +:+ String ":" b.
Proof.
  revert s. induction (N.lt_wf_0 x) as [x _ IH]; intros s Hs.
  destruct (decide (0 < x)%N) as [Hpos | Hzero].
  - rewrite pretty_N_go_step by done. apply IH.
    + by apply N.div_lt.
    + apply no_colon_String; [apply pretty_N_char_no_colon | done].
  - replace x with 0%N by lia. by rewrite pretty_N_go_0.
Qed.

(** The decimal form of a port holds no colon. *)
Lemma pretty_N_no_colon (port : N) (a b : string) :
  pretty port ≠ a +:+ String ":" b.
Proof.
  unfold pretty, pretty_N. destruct (decide (port = 0%N)).
  - by destruct a as [|c [|c' a']].
  - apply pretty_N_go_no_colon. by intros [|c a'] b'.
Qed.

Lemma Sprintf_addr_inj (ip ip' : string) (port port' : N) :
  Sprintf_addr ip port = Sprintf_addr ip' port' → ip = ip' ∧ port = port'.
Proof.
  unfold Sprintf_addr. revert ip'.
  induction ip as [|c ip IH]; intros [|c' ip']; simpl; intros Heq.
  - injection Heq as Hport. split; [done | by apply (inj pretty)].
  - injection Heq as <- Htail. by apply pretty_N_no_colon in Htail.
  - injection Heq as -> Htail. symmetry in Htail.
    by apply pretty_N_no_colon in Htail.
  - injection Heq as -> Htail. by apply IH in Htail as [-> ->].
Qed.

(** X16: [debugBindAddr] tells the addresses apart: two commands have the
    same debug address exactly when they have the same debug IP and the
    same debug port, whatever colons the textual form of the IP holds. *)
Theorem debugBindAddr_inj {rsaPrivateKey : Type}
    (cmd cmd' : TSACommand rsaPrivateKey) :
  debugBindAddr cmd = debugBindAddr cmd'
  ↔ DebugBindIP cmd = DebugBindIP cmd'
    ∧ DebugBindPort cmd = DebugBindPort cmd'.
Proof.
  unfold debugBindAddr. split.
  - apply Sprintf_addr_inj.
  - by intros [-> ->].
Qed.

Lemma debugBindAddr_inj_witness :
  debugBindAddr sample_cmd = debugBindAddr sample_cmd_teams
  ∧ debugBindAddr sample_cmd = "127.0.0.1:2221".
Proof.
  split; [|reflexivity].
  apply (debugBindAddr_inj sample_cmd sample_cmd_teams).
  split; reflexivity.
Defined.

Section addresses.

Context {rsaPrivateKey Signer Config : Type}.
Variable AuthorizeTeam : string → string → M sessionTeam ().
Variable CheckCert : string → PublicKey → option error.
Variable DefaultSSHConfig : Config.
Variable NewSignerFromKey :
  PrivateKeyFlag rsaPrivateKey → Completion (Signer + error).
Variable rangeOrder :
  gmap string AuthorizedKeysFlag → list (string * AuthorizedKeysFlag).

(** X17: the address a runner listens on is the debug address of the
    command only if the two IPs and the two ports are the same; with
    different ports, or different IPs, the two addresses differ. *)
Theorem Runner_listenAddr_debugBindAddr (cmd : TSACommand rsaPrivateKey)
    (args : list string) (webConfig : WebConfig)
    (runner : serverRunner rsaPrivateKey Signer Config) :
  (Runner AuthorizeTeam CheckCert DefaultSSHConfig NewSignerFromKey
     rangeOrder cmd args webConfig).2 = Completes (Some runner, None) →
  runner_listenAddr runner = debugBindAddr cmd
  ↔ BindIP cmd = DebugBindIP cmd ∧ BindPort cmd = DebugBindPort cmd.
Proof.
  unfold Runner, configureSSHServer. simpl.
  destruct (ssh_NewSignerFromKey NewSignerFromKey (HostKey cmd))
    as [[signer | e] | reason]; [|done|done].
  destruct (SessionSigningKey cmd) as [key|]; [|done].
  simpl. intros [= <-]. simpl. unfold debugBindAddr. split.
  - apply Sprintf_addr_inj.
  - by intros [-> ->].
Qed.

End addresses.

Lemma Runner_listenAddr_debugBindAddr_witness :
  ∃ runner : serverRunner () () (),
    (sample_Runner sample_cmd).2 = Completes (Some runner, None)
    ∧ runner_listenAddr runner = "0.0.0.0:2222"
    ∧ debugBindAddr sample_cmd = "127.0.0.1:2221"
    ∧ (runner_listenAddr runner = debugBindAddr sample_cmd
       ↔ BindIP sample_cmd = DebugBindIP sample_cmd
         ∧ BindPort sample_cmd = DebugBindPort sample_cmd).
Proof.
  eexists. split; [reflexivity|]. split; [reflexivity|].
  split; [reflexivity|].
  exact (Runner_listenAddr_debugBindAddr sessionTeam_AuthorizeTeam
           sample_CheckCert () sample_NewSignerFromKey map_to_list
           sample_cmd [] sample_webConfig _ eq_refl).
Defined.

(** ** The presenter, on joined slices *)

Lemma Pipelines_eq_map {dbPipeline atcPipeline : Type}
    (Pipeline : dbPipeline → atcPipeline) (zero : atcPipeline)
    (saved : list dbPipeline) :
  Pipelines Pipeline zero saved = Some (map Pipeline saved).
Proof.
  unfold Pipelines, make.
  apply (Pipelines_range_from Pipeline zero saved (length saved) 0). lia.
Qed.

(** X18: presenting two slices joined is presenting each and joining the
    results, and none of the three calls panics; in particular no saved
    pipeline is presented differently for what comes before or after
    it. *)
Theorem Pipelines_app {dbPipeline atcPipeline : Type}
    (Pipeline : dbPipeline → atcPipeline) (zero : atcPipeline)
    (saved saved' : list dbPipeline) :
  ∃ pipelines pipelines' : list atcPipeline,
    Pipelines Pipeline zero saved = Some pipelines
    ∧ Pipelines Pipeline zero saved' = Some pipelines'
    ∧ Pipelines Pipeline zero (saved ++ saved')
      = Some (pipelines ++ pipelines').
Proof.
  exists (map Pipeline saved), (map Pipeline saved').
  rewrite !Pipelines_eq_map. by rewrite map_app.
Qed.
